(** * WildVision observations backend (app.py): model and properties

    A shallow embedding of the Flask service in [app.py].  The handlers are
    pure functions from a request, the request's environment (clock, driver
    generated identifier, collaborator availability) and the state of the
    [observations] collection to an outcome and a new state.

    Python values are modelled structurally.  A Python [str] is a Rocq
    [string] whose characters are the code points U+0000..U+00FF; an [int]
    is a [Z]; a [float] is an IEEE binary64 value given by sign, integral
    significand and binary exponent. *)

From Stdlib Require Import ZArith NArith List String Ascii Bool Lia.
From Stdlib.Strings Require Import Byte.
Import ListNotations.
Open Scope string_scope.
Open Scope Z_scope.

(** ** Exceptions *)

Inductive exn : Type :=
| TypeError
| ValueError
| OverflowError
| KeyError
| AttributeError
| InvalidId
| DuplicateKeyError
| PyMongoError
| BadRequest
| UnsupportedMediaType
| RecursionError.

Inductive exc (A : Type) : Type :=
| Ok (a : A)
| Raise (e : exn).

Arguments Ok {A} a.
Arguments Raise {A} e.

Definition bind {A B : Type} (c : exc A) (k : A -> exc B) : exc B :=
  match c with
  | Ok a => k a
  | Raise e => Raise e
  end.

Notation "'do' x <- c ; k" := (bind c (fun x => k))
  (at level 10, x name, c at level 100, k at level 200).

(** ** Strings *)

Definition code (c : ascii) : Z := Z.of_N (N_of_ascii c).

Definition chr (n : Z) : ascii := ascii_of_N (Z.to_N n).

Definition between (lo n hi : Z) : bool := (lo <=? n) && (n <=? hi).

(** [str.isspace] on one character: the Unicode white space below U+0100. *)
Definition Py_UNICODE_ISSPACE (c : ascii) : bool :=
  let n := code c in
  between 9 n 13 || between 28 n 32 || (n =? 133) || (n =? 160).

(** The C-locale [Py_ISSPACE] used by the numeric parsers. *)
Definition Py_ISSPACE (c : ascii) : bool :=
  let n := code c in between 9 n 13 || (n =? 32).

Definition is_digit (c : ascii) : bool := between 48 (code c) 57.

Fixpoint lstrip_by (sp : ascii -> bool) (s : string) : string :=
  match s with
  | String c r => if sp c then lstrip_by sp r else s
  | EmptyString => EmptyString
  end.

Fixpoint rstrip_by (sp : ascii -> bool) (s : string) : string :=
  match s with
  | EmptyString => EmptyString
  | String c r =>
      match rstrip_by sp r with
      | EmptyString => if sp c then EmptyString else String c EmptyString
      | r' => String c r'
      end
  end.

Definition strip_by (sp : ascii -> bool) (s : string) : string :=
  rstrip_by sp (lstrip_by sp s).

(** [s.strip()] *)
Definition strip (s : string) : string := strip_by Py_UNICODE_ISSPACE s.

Fixpoint string_map (f : ascii -> ascii) (s : string) : string :=
  match s with
  | EmptyString => EmptyString
  | String c r => String (f c) (string_map f r)
  end.

Fixpoint string_forallb (p : ascii -> bool) (s : string) : bool :=
  match s with
  | EmptyString => true
  | String c r => p c && string_forallb p r
  end.

Fixpoint join (sep : string) (l : list string) : string :=
  match l with
  | [] => EmptyString
  | [x] => x
  | x :: r => x ++ sep ++ join sep r
  end.

(** [sub in s] for two strings. *)
Fixpoint contains (sub s : string) : bool :=
  if prefix sub s then true
  else match s with
       | EmptyString => false
       | String _ r => contains sub r
       end.

Definition lower_char (c : ascii) : ascii :=
  if between 65 (code c) 90 then chr (code c + 32) else c.

(** ASCII case folding, as used for header names and for "inf"/"nan". *)
Definition lower (s : string) : string := string_map lower_char s.

(** ** Decimal numerals *)

Fixpoint digits_aux (fuel : nat) (n : Z) (acc : string) : string :=
  match fuel with
  | O => acc
  | S f =>
      let acc' := String (chr (48 + n mod 10)) acc in
      if n <? 10 then acc' else digits_aux f (n / 10) acc'
  end.

(** Decimal digits of a natural number. *)
Definition digits (n : Z) : string :=
  digits_aux (S (Z.to_nat (Z.log2 n))) n EmptyString.

(** [str(n)] for an [int]. *)
Definition str_of_int (n : Z) : string :=
  if n <? 0 then "-" ++ digits (- n) else digits n.

Fixpoint repeat_char (c : ascii) (n : nat) : string :=
  match n with
  | O => EmptyString
  | S k => String c (repeat_char c k)
  end.

(** ["%0<w>d" % n] for [0 <= n]. *)
Definition zero_pad (w : nat) (n : Z) : string :=
  let d := digits n in
  repeat_char "0" (w - String.length d) ++ d.

(** ** [int(s)] for a string

    The text is folded to ASCII (white space above U+007F becomes a blank),
    C white space is dropped at both ends, then comes an optional sign and
    decimal digits that single underscores may separate, at most
    [max_str_digits] of them. *)

Definition to_ascii_space (s : string) : string :=
  if string_forallb (fun c => code c <? 128) s then s
  else string_map (fun c => if (127 <=? code c) && Py_UNICODE_ISSPACE c
                            then " "%char else c) s.

Fixpoint parse_digits (s : string) (acc : Z) (after_digit : bool) : option Z :=
  match s with
  | EmptyString => if after_digit then Some acc else None
  | String c r =>
      if (code c =? 95) then
        if after_digit then parse_digits r acc false else None
      else if is_digit c then parse_digits r (10 * acc + (code c - 48)) true
      else None
  end.

Definition split_sign (s : string) : bool * string :=
  match s with
  | String c r =>
      if code c =? 45 then (true, r)
      else if code c =? 43 then (false, r)
      else (false, s)
  | EmptyString => (false, s)
  end.

(** [sys.get_int_max_str_digits()], at its default. *)
Definition max_str_digits : Z := 4300.

Fixpoint count_digits (s : string) : Z :=
  match s with
  | EmptyString => 0
  | String c r => (if is_digit c then 1 else 0) + count_digits r
  end.

Definition int_of_str (s : string) : exc Z :=
  let '(neg, r) := split_sign (strip_by Py_ISSPACE (to_ascii_space s)) in
  match parse_digits r 0 false with
  | Some n =>
      if max_str_digits <? count_digits r then Raise ValueError
      else Ok (if neg then - n else n)
  | None => Raise ValueError
  end.

(** ** Floats: IEEE binary64 *)

Inductive pyfloat : Type :=
| FNan
| FInf (neg : bool)
| FFin (neg : bool) (m : Z) (e : Z).   (* (-1)^neg * m * 2^e *)

Definition fzero (neg : bool) : pyfloat := FFin neg 0 (-1074).

(** Quotient and doubled remainder test of [num / (den * 2^e)], rounded to the
    nearest integer, ties to even. *)
Definition round_scaled (num den e : Z) : Z :=
  let n := if 0 <=? e then num else num * 2 ^ (- e) in
  let d := if 0 <=? e then den * 2 ^ e else den in
  let q := n / d in
  let r := n mod d in
  if 2 * r <? d then q
  else if d <? 2 * r then q + 1
  else if Z.even q then q else q + 1.

(** The binary exponent at which [num / den] has a 53-bit significand, not
    below the subnormal exponent. *)
Definition binade (num den : Z) : Z :=
  let l := Z.log2 num - Z.log2 den in
  let fl := if (if 0 <=? l then den * 2 ^ l <=? num else den <=? num * 2 ^ (- l))
            then l else l - 1 in
  Z.max (fl - 52) (-1074).

(** Nearest binary64 to the positive rational [num / den]; [None] when the
    rounded value exceeds the largest finite double. *)
Definition round_pos (num den : Z) : option (Z * Z) :=
  let e := binade num den in
  let m := round_scaled num den e in
  let '(m, e) := if m =? 2 ^ 53 then (2 ^ 52, e + 1) else (m, e) in
  if 971 <? e then None else Some (m, e).

(** [float(n)] for an [int]: raises beyond the double range. *)
Definition float_of_int (n : Z) : exc pyfloat :=
  if n =? 0 then Ok (fzero false)
  else match round_pos (Z.abs n) 1 with
       | Some (m, e) => Ok (FFin (n <? 0) m e)
       | None => Raise OverflowError
       end.

(** [int(x)] for a [float]: truncation towards zero. *)
Definition int_of_float (x : pyfloat) : exc Z :=
  match x with
  | FNan => Raise ValueError
  | FInf _ => Raise OverflowError
  | FFin neg m e =>
      let a := if 0 <=? e then m * 2 ^ e else m / 2 ^ (- e) in
      Ok (if neg then - a else a)
  end.

(** Truth value of a float: every value but the two zeros. *)
Definition float_true (x : pyfloat) : bool :=
  match x with
  | FFin _ m _ => negb (m =? 0)
  | _ => true
  end.

(** The value [sign * d * 10^p] as a double; overflow gives an infinity. *)
Definition float_of_decimal (neg : bool) (d p : Z) : pyfloat :=
  if d =? 0 then fzero neg
  else
    let num := if 0 <=? p then d * 10 ^ p else d in
    let den := if 0 <=? p then 1 else 10 ^ (- p) in
    match round_pos num den with
    | Some (m, e) => FFin neg m e
    | None => FInf neg
    end.

(** *** [float(s)] for a string *)

(** Underscores may only stand between two digits; they are dropped. *)
Fixpoint drop_underscores (s : string) (prev : ascii) : option string :=
  match s with
  | EmptyString => if code prev =? 95 then None else Some EmptyString
  | String c r =>
      if code c =? 95 then
        if is_digit prev then drop_underscores r c else None
      else if (code prev =? 95) && negb (is_digit c) then None
      else option_map (String c) (drop_underscores r c)
  end.

(** Leading digits of [s]: their value, their number and the rest. *)
Fixpoint take_digits (s : string) (acc : Z) (n : Z) : Z * Z * string :=
  match s with
  | String c r =>
      if is_digit c then take_digits r (10 * acc + (code c - 48)) (n + 1)
      else (acc, n, s)
  | EmptyString => (acc, n, s)
  end.

(** The exponent part: empty, or [e], an optional sign and digits. *)
Definition parse_exponent (s : string) : option Z :=
  match s with
  | EmptyString => Some 0
  | String c r =>
      if (code c =? 101) || (code c =? 69) then
        let '(neg, r') := split_sign r in
        let '(v, n, rest) := take_digits r' 0 0 in
        if (0 <? n) && (String.length rest =? 0)%nat
        then Some (if neg then - v else v) else None
      else None
  end.

Definition parse_decimal (neg : bool) (s : string) : exc pyfloat :=
  let '(ip, ni, r1) := take_digits s 0 0 in
  let '(fp, nf, r2) :=
    match r1 with
    | String c r => if code c =? 46 then take_digits r ip 0 else (ip, 0, r1)
    | EmptyString => (ip, 0, r1)
    end in
  if 0 <? ni + nf then
    match parse_exponent r2 with
    | Some x => Ok (float_of_decimal neg fp (x - nf))
    | None => Raise ValueError
    end
  else Raise ValueError.

Definition float_of_str (s : string) : exc pyfloat :=
  let t := strip_by Py_ISSPACE (to_ascii_space s) in
  match drop_underscores t "000" with
  | None => Raise ValueError
  | Some u =>
      let '(neg, r) := split_sign u in
      let w := lower r in
      if (w =? "inf")%string || (w =? "infinity")%string then Ok (FInf neg)
      else if (w =? "nan")%string then Ok FNan
      else parse_decimal neg r
  end.

(** *** [repr(x)] for a float: the shortest decimal that reads back as [x] *)

Definition float_eqb (x y : pyfloat) : bool :=
  match x, y with
  | FNan, FNan => true
  | FInf a, FInf b => Bool.eqb a b
  | FFin a m e, FFin b n f => Bool.eqb a b && (m =? n) && (e =? f)
  | _, _ => false
  end.

Definition ndigits (n : Z) : Z := Z.of_nat (String.length (digits n)).

(** [floor (log10 (num / den))] for a positive rational. *)
Definition floor_log10 (num den : Z) : Z :=
  if den <=? num then ndigits (num / den) - 1
  else
    let d := ndigits (den / num) in
    if den <=? num * 10 ^ (d - 1) then - (d - 1) else - d.

(** Search, by increasing number [n] of significant digits, for a decimal
    [d * 10^s] next to [num / den] that rounds to [x]. *)
Fixpoint shortest_aux (fuel : nat) (x : pyfloat) (num den k n : Z) : Z * Z :=
  match fuel with
  | O => (0, 0)
  | S f =>
      let s := k - n + 1 in
      let nn := if 0 <=? s then num else num * 10 ^ (- s) in
      let dd := if 0 <=? s then den * 10 ^ s else den in
      let lo := nn / dd in
      let r := nn mod dd in
      let reads d := float_eqb (float_of_decimal false d s) x in
      if r =? 0 then (lo, s)
      else
        match reads lo, reads (lo + 1) with
        | true, true =>
            if 2 * r <? dd then (lo, s)
            else if dd <? 2 * r then (lo + 1, s)
            else if Z.even lo then (lo, s) else (lo + 1, s)
        | true, false => (lo, s)
        | false, true => (lo + 1, s)
        | false, false => shortest_aux f x num den k (n + 1)
        end
  end.

Fixpoint drop_zeros (fuel : nat) (d s : Z) : Z * Z :=
  match fuel with
  | O => (d, s)
  | S f => if (d mod 10 =? 0) && negb (d =? 0)
           then drop_zeros f (d / 10) (s + 1) else (d, s)
  end.

(** Digits and decimal exponent of the shortest decimal for [m * 2^e > 0]. *)
Definition shortest_decimal (m e : Z) : Z * Z :=
  let num := if 0 <=? e then m * 2 ^ e else m in
  let den := if 0 <=? e then 1 else 2 ^ (- e) in
  let '(d, s) :=
    shortest_aux 17 (FFin false m e) num den (floor_log10 num den) 1 in
  drop_zeros 400 d s.

Definition string_take (n : nat) (s : string) : string := substring 0 n s.

Definition string_drop (n : nat) (s : string) : string :=
  substring n (String.length s - n) s.

(** Layout of [repr]: exponent form when the decimal point falls more than
    four places before or sixteen places after the first digit. *)
Definition format_repr (ds : string) (decpt : Z) : string :=
  let nd := Z.of_nat (String.length ds) in
  if (decpt <=? -4) || (16 <? decpt) then
    let x := decpt - 1 in
    let mant := match ds with
                | String c EmptyString => ds
                | String c r => String c ("." ++ r)
                | EmptyString => ds
                end in
    mant ++ "e" ++ (if x <? 0 then "-" else "+") ++ zero_pad 2 (Z.abs x)
  else if decpt <=? 0 then
    "0." ++ repeat_char "0" (Z.to_nat (- decpt)) ++ ds
  else if nd <=? decpt then
    ds ++ repeat_char "0" (Z.to_nat (decpt - nd)) ++ ".0"
  else
    string_take (Z.to_nat decpt) ds ++ "." ++ string_drop (Z.to_nat decpt) ds.

Definition repr_float (x : pyfloat) : string :=
  match x with
  | FNan => "nan"
  | FInf neg => if neg then "-inf" else "inf"
  | FFin neg m e =>
      (if neg then "-" else EmptyString) ++
      (if m =? 0 then "0.0"
       else let '(d, s) := shortest_decimal m e in
            format_repr (digits d) (ndigits d + s))
  end.

(** *** [repr(s)] for a string *)

Definition hex_digit (n : Z) : ascii :=
  if n <? 10 then chr (48 + n) else chr (87 + n).

Definition printable (c : ascii) : bool :=
  let n := code c in
  between 32 n 126 || (between 161 n 255 && negb (n =? 173)).

Definition escape_char (quote : ascii) (c : ascii) : string :=
  let n := code c in
  if (c =? quote)%char || (n =? 92) then String "\" (String c EmptyString)
  else if n =? 9 then "\t"
  else if n =? 10 then "\n"
  else if n =? 13 then "\r"
  else if printable c then String c EmptyString
  else String "\" (String "x" (String (hex_digit (n / 16))
                                  (String (hex_digit (n mod 16)) EmptyString))).

Fixpoint escape (quote : ascii) (s : string) : string :=
  match s with
  | EmptyString => EmptyString
  | String c r => escape_char quote c ++ escape quote r
  end.

Definition has_char (n : Z) (s : string) : bool :=
  negb (string_forallb (fun c => negb (code c =? n)) s).

Definition repr_str (s : string) : string :=
  let quote := if has_char 39 s && negb (has_char 34 s)
               then chr 34 else chr 39 in
  String quote (escape quote s ++ String quote EmptyString).

(** ** Identifiers: [bson.ObjectId] *)

(** The [binary] of an identifier; the driver generates twelve bytes. *)
Definition ObjectId : Type := list byte.

Fixpoint oid_eqb (a b : ObjectId) : bool :=
  match a, b with
  | [], [] => true
  | x :: a', y :: b' => Byte.eqb x y && oid_eqb a' b'
  | _, _ => false
  end.

(** [binascii.hexlify]: two lower-case digits per byte; [str(oid)]. *)
Fixpoint hexlify (bs : list byte) : string :=
  match bs with
  | [] => EmptyString
  | b :: r =>
      let n := Z.of_N (Byte.to_N b) in
      String (hex_digit (n / 16)) (String (hex_digit (n mod 16)) (hexlify r))
  end.

Definition hex_value (c : ascii) : option Z :=
  let n := code c in
  if between 48 n 57 then Some (n - 48)
  else if between 97 n 102 then Some (n - 87)
  else if between 65 n 70 then Some (n - 55)
  else None.

Definition byte_of_Z (n : Z) : byte :=
  match Byte.of_N (Z.to_N n) with
  | Some b => b
  | None => x00
  end.

(** [bytes.fromhex]: pairs of hexadecimal digits, ASCII white space allowed
    between the pairs. *)
Fixpoint fromhex (s : string) : option (list byte) :=
  match s with
  | EmptyString => Some []
  | String c r =>
      if Py_ISSPACE c then fromhex r
      else
        match hex_value c, r with
        | Some hi, String c2 r2 =>
            match hex_value c2 with
            | Some lo => option_map (cons (byte_of_Z (16 * hi + lo))) (fromhex r2)
            | None => None
            end
        | _, _ => None
        end
  end.

(** [ObjectId(s)] for a string: 24 characters that [bytes.fromhex] reads. *)
Definition ObjectId_of_str (s : string) : exc ObjectId :=
  if (String.length s =? 24)%nat then
    match fromhex s with
    | Some bs => Ok bs
    | None => Raise InvalidId
    end
  else Raise InvalidId.

(** Big-endian bytes of a number, as the driver lays out a fresh identifier. *)
Fixpoint be_bytes (w : nat) (n : Z) : list byte :=
  match w with
  | O => []
  | S k => (be_bytes k (n / 256) ++ [byte_of_Z (n mod 256)])%list
  end.

(** ** [datetime.datetime] (naive) *)

Record datetime : Type := mkDatetime {
  year : Z; month : Z; day : Z;
  hour : Z; minute : Z; second : Z; microsecond : Z
}.

(** [t.isoformat(sep)] *)
Definition isoformat (sep : string) (t : datetime) : string :=
  zero_pad 4 (year t) ++ "-" ++ zero_pad 2 (month t) ++ "-" ++
  zero_pad 2 (day t) ++ sep ++
  zero_pad 2 (hour t) ++ ":" ++ zero_pad 2 (minute t) ++ ":" ++
  zero_pad 2 (second t) ++
  (if microsecond t =? 0 then EmptyString
   else "." ++ zero_pad 6 (microsecond t)).

(** BSON keeps an instant in whole milliseconds. *)
Definition millis (t : datetime) : datetime :=
  mkDatetime (year t) (month t) (day t) (hour t) (minute t) (second t)
             (microsecond t / 1000 * 1000).

Definition repr_datetime (t : datetime) : string :=
  let l := ([year t; month t; day t; hour t; minute t] ++
            (if microsecond t =? 0
             then (if second t =? 0 then [] else [second t])
             else [second t; microsecond t]))%list in
  "datetime.datetime(" ++ join ", " (map str_of_int l) ++ ")".

(** ** Python values *)

#[local] Set Warnings "-register-all".

Inductive pyval : Type :=
| PNone
| PBool (b : bool)
| PInt (n : Z)
| PFloat (x : pyfloat)
| PStr (s : string)
| PList (l : list pyval)
| PDict (d : list (string * pyval))
| PObjectId (o : ObjectId)
| PDatetime (t : datetime).

(** A [dict] with string keys, in insertion order; its keys are distinct. *)
Definition dict : Type := list (string * pyval).

Fixpoint lookup (k : string) (d : dict) : option pyval :=
  match d with
  | [] => None
  | (k', v) :: r => if (k' =? k)%string then Some v else lookup k r
  end.

(** [d[k] = v]: in place when the key is there, at the end otherwise. *)
Fixpoint dict_set (k : string) (v : pyval) (d : dict) : dict :=
  match d with
  | [] => [(k, v)]
  | (k', v') :: r =>
      if (k' =? k)%string then (k', v) :: r else (k', v') :: dict_set k v r
  end.

Definition keys (d : dict) : list string := map fst d.

Fixpoint repr (v : pyval) : string :=
  match v with
  | PNone => "None"
  | PBool b => if b then "True" else "False"
  | PInt n => str_of_int n
  | PFloat x => repr_float x
  | PStr s => repr_str s
  | PList l => "[" ++ join ", " (map repr l) ++ "]"
  | PDict d =>
      "{" ++ join ", " (map (fun kv => let '(k, x) := kv in
                                       repr_str k ++ ": " ++ repr x) d) ++ "}"
  | PObjectId o => "ObjectId('" ++ hexlify o ++ "')"
  | PDatetime t => repr_datetime t
  end.

(** [str(v)] *)
Definition py_str (v : pyval) : string :=
  match v with
  | PStr s => s
  | PObjectId o => hexlify o
  | PDatetime t => isoformat " " t
  | _ => repr v
  end.

(** [int(v)] *)
Definition py_int (v : pyval) : exc Z :=
  match v with
  | PBool b => Ok (if b then 1 else 0)
  | PInt n => Ok n
  | PFloat x => int_of_float x
  | PStr s => int_of_str s
  | _ => Raise TypeError
  end.

(** [float(v)] *)
Definition py_float (v : pyval) : exc pyfloat :=
  match v with
  | PBool b => float_of_int (if b then 1 else 0)
  | PInt n => float_of_int n
  | PFloat x => Ok x
  | PStr s => float_of_str s
  | _ => Raise TypeError
  end.

(** Truth value, as tested by [not v]. *)
Definition truthy (v : pyval) : bool :=
  match v with
  | PNone => false
  | PBool b => b
  | PInt n => negb (n =? 0)
  | PFloat x => float_true x
  | PStr s => negb (String.length s =? 0)%nat
  | PList l => negb (List.length l =? 0)%nat
  | PDict d => negb (List.length d =? 0)%nat
  | PObjectId _ => true
  | PDatetime _ => true
  end.

(** [k in v] for a string [k]: a key of a dict, an element of a list, a
    substring of a string; other values are not containers. *)
Definition py_in (k : string) (v : pyval) : exc bool :=
  match v with
  | PDict d => Ok (existsb (fun kv => (fst kv =? k)%string) d)
  | PList l => Ok (existsb (fun x => match x with
                                     | PStr s => (s =? k)%string
                                     | _ => false
                                     end) l)
  | PStr s => Ok (contains k s)
  | _ => Raise TypeError
  end.

(** [v[k]] for a string [k]. *)
Definition py_getitem (v : pyval) (k : string) : exc pyval :=
  match v with
  | PDict d => match lookup k d with
               | Some x => Ok x
               | None => Raise KeyError
               end
  | _ => Raise TypeError
  end.

(** What the JSON provider can serialise: everything here but identifiers. *)
Fixpoint jsonable (v : pyval) : bool :=
  match v with
  | PObjectId _ => false
  | PList l => forallb jsonable l
  | PDict d => forallb (fun kv => let '(_, x) := kv in jsonable x) d
  | _ => true
  end.

Definition jsonify (v : pyval) : exc pyval :=
  if jsonable v then Ok v else Raise TypeError.

(** A value as it comes back from the store. *)
Fixpoint bson (v : pyval) : pyval :=
  match v with
  | PDatetime t => PDatetime (millis t)
  | PList l => PList (map bson l)
  | PDict d => PDict (map (fun kv => let '(k, x) := kv in (k, bson x)) d)
  | _ => v
  end.

(** ** The [observations] collection *)

(** The fields of a stored document, without its [_id]. *)
Definition document : Type := dict.

(** The collection in natural (insertion) order: each document under the
    identifier that is its [_id]. *)
Definition collection : Type := list (ObjectId * document).

(** What a request finds around it: the configured key, the clock, the
    number whose twelve bytes the driver takes as the next identifier,
    whether the store answers, and which documents the driver and the server
    take (encoding and size limits, such as 64-bit integers, are theirs). *)
Record Env : Type := mkEnv {
  API_KEY : option string;
  utcnow : datetime;
  oid_seed : Z;
  store_up : bool;
  store_accepts : document -> bool
}.

(** [ObjectId()] *)
Definition new_oid (env : Env) : ObjectId := be_bytes 12 (oid_seed env).

Definition has_id (o : ObjectId) (e : ObjectId * document) : bool :=
  oid_eqb (fst e) o.

(** A document as a query returns it: [_id] first. *)
Definition with_id (e : ObjectId * document) : dict :=
  ("_id", PObjectId (fst e)) :: snd e.

(** [insert_one(doc)] for a document without [_id]: the driver adds a fresh
    identifier; the server refuses one it already holds. *)
Definition insert_one (env : Env) (doc : document) (c : collection)
  : exc ObjectId * collection :=
  if negb (store_up env) || negb (store_accepts env doc) then
    (Raise PyMongoError, c)
  else if existsb (has_id (new_oid env)) c then (Raise DuplicateKeyError, c)
  else
    (Ok (new_oid env),
     (c ++ [(new_oid env,
             map (fun kv => let '(k, x) := kv in (k, bson x)) doc)])%list).

(** [list(find())] *)
Definition find_all (env : Env) (c : collection) : exc (list dict) :=
  if store_up env then Ok (map with_id c) else Raise PyMongoError.

(** [find_one({'_id': o})] *)
Definition find_one (env : Env) (o : ObjectId) (c : collection)
  : exc (option dict) :=
  if store_up env then Ok (option_map with_id (find (has_id o) c))
  else Raise PyMongoError.

Fixpoint remove_first (o : ObjectId) (c : collection) : collection :=
  match c with
  | [] => []
  | e :: r => if has_id o e then r else e :: remove_first o r
  end.

(** [delete_one({'_id': o})]: the result is [deleted_count]. *)
Definition delete_one (env : Env) (o : ObjectId) (c : collection)
  : exc Z * collection :=
  if store_up env then
    (Ok (if existsb (has_id o) c then 1 else 0), remove_first o c)
  else (Raise PyMongoError, c).

(** The driver's encoder, as far as integers go: BSON integers have 64 bits,
    and [insert_one] raises [OverflowError] on a document that holds an
    [int] outside them. *)
Definition int64 (n : Z) : bool := (- 2 ^ 63 <=? n) && (n <? 2 ^ 63).

Fixpoint bson_encodes (v : pyval) : bool :=
  match v with
  | PInt n => int64 n
  | PList l => forallb bson_encodes l
  | PDict d => forallb (fun kv => let '(_, x) := kv in bson_encodes x) d
  | _ => true
  end.

(** A store that takes the documents whose integers the encoder takes. *)
Definition bson_store (doc : document) : bool :=
  forallb (fun kv => let '(_, x) := kv in bson_encodes x) doc.

(** ** Requests and responses *)

(** A request as the views read it: [request.headers.get('x-api-key')] and
    the value that [request.get_json()] returns; [received], below, has the
    case where it raises. *)
Record Request : Type := mkRequest {
  x_api_key : option string;
  get_json : pyval
}.

(** [(jsonify(body), status)] *)
Record Response : Type := mkResponse {
  status : Z;
  body : pyval
}.

(** A view returns a response or lets an exception escape to Flask, and
    leaves the collection in a new state. *)
Definition view : Type := Env -> Request -> collection -> exc Response * collection.

Definition error (msg : string) : pyval :=
  PDict [("status", PStr "error"); ("message", PStr msg)].

(** ** [require_api_key] *)

Definition key_rejected (key api_key : option string) : bool :=
  match key with
  | None => true
  | Some k =>
      (String.length k =? 0)%nat ||
      match api_key with
      | Some a => negb (k =? a)%string
      | None => true
      end
  end.

Definition require_api_key (f : view) : view :=
  fun env req c =>
    if key_rejected (x_api_key req) (API_KEY env)
    then (Ok (mkResponse 401 (error "Unauthorized")), c)
    else f env req c.

(** ** [add_observation] *)

Definition required_fields : list string :=
  ["species"; "gender"; "quantity"; "latitude"; "longitude"; "userId"].

(** [[field for field in fields if field not in data]] *)
Fixpoint missing_fields (data : pyval) (fields : list string)
  : exc (list string) :=
  match fields with
  | [] => Ok []
  | f :: r =>
      do b <- py_in f data;
      do m <- missing_fields data r;
      Ok (if b then m else f :: m)
  end.

Record fields : Type := mkFields {
  f_species : string;
  f_gender : string;
  f_quantity : Z;
  f_latitude : pyfloat;
  f_longitude : pyfloat;
  f_userId : string
}.

(** The six coercions of the [try] block, in order. *)
Definition extract (data : pyval) : exc fields :=
  do v <- py_getitem data "species";
  let species := strip (py_str v) in
  do v <- py_getitem data "gender";
  let gender := strip (py_str v) in
  do v <- py_getitem data "quantity";
  do quantity <- py_int v;
  do v <- py_getitem data "latitude";
  do latitude <- py_float v;
  do v <- py_getitem data "longitude";
  do longitude <- py_float v;
  do v <- py_getitem data "userId";
  let user_id := strip (py_str v) in
  Ok (mkFields species gender quantity latitude longitude user_id).

Definition genders : list string := ["Male"; "Female"; "Unknown"].

(** The body of the [try] block: a response returned from inside it, or the
    validated fields. *)
Definition validate (data : pyval) : exc (Response + fields) :=
  do f <- extract data;
  if negb (existsb (String.eqb (f_gender f)) genders) then
    Ok (inl (mkResponse 400 (error "Invalid gender value")))
  else if f_quantity f <? 1 then
    Ok (inl (mkResponse 400 (error "Quantity must be at least 1")))
  else Ok (inr f).

(** The [observation] dict. *)
Definition observation (f : fields) (now : datetime) : document :=
  [("species", PStr (f_species f));
   ("gender", PStr (f_gender f));
   ("quantity", PInt (f_quantity f));
   ("latitude", PFloat (f_latitude f));
   ("longitude", PFloat (f_longitude f));
   ("userId", PStr (f_userId f));
   ("timestamp", PDatetime now)].

Definition add_observation_view : view :=
  fun env req c =>
    let data := get_json req in
    if negb (truthy data) then
      (Ok (mkResponse 400 (error "No data provided")), c)
    else
      match missing_fields data required_fields with
      | Raise e => (Raise e, c)
      | Ok ((_ :: _) as missing) =>
          (Ok (mkResponse 400
                 (error ("Missing fields: " ++ join ", " missing))), c)
      | Ok [] =>
          match validate data with
          | Raise ValueError | Raise TypeError =>
              (Ok (mkResponse 400 (error "Invalid data types provided")), c)
          | Raise e => (Raise e, c)
          | Ok (inl r) => (Ok r, c)
          | Ok (inr f) =>
              match insert_one env (observation f (utcnow env)) c with
              | (Ok o, c') =>
                  (Ok (mkResponse 201
                         (PDict [("status", PStr "success");
                                 ("message", PStr "Observation added successfully");
                                 ("id", PStr (hexlify o))])), c')
              | (Raise _, c') =>
                  (Ok (mkResponse 500 (error "Failed to add observation")), c')
              end
          end
      end.

Definition add_observation : view := require_api_key add_observation_view.

(** What [request.get_json()] does on line 41, inside the view and after
    the key check: it returns the parsed body, or it raises ([BadRequest] on
    a body that is not JSON, [UnsupportedMediaType] on another content type,
    [RecursionError] on a body nested too deep). *)
Inductive received : Type :=
| Parsed (data : pyval)
| Unparsed (e : exn).

(** [add_observation] from the header and what [get_json] does. *)
Definition add_observation_received
  (env : Env) (key : option string) (b : received) (c : collection)
  : exc Response * collection :=
  match b with
  | Parsed data => add_observation env (mkRequest key data) c
  | Unparsed e =>
      require_api_key (fun _ _ c' => (Raise e, c')) env (mkRequest key PNone) c
  end.

(** ** [get_observations] and [get_observation] *)

(** [v.isoformat()] *)
Definition py_isoformat (v : pyval) : exc string :=
  match v with
  | PDatetime t => Ok (isoformat "T" t)
  | _ => Raise AttributeError
  end.

(** The two assignments that turn a found document into text. *)
Definition render (obs : dict) : exc dict :=
  do i <- py_getitem (PDict obs) "_id";
  let obs := dict_set "_id" (PStr (py_str i)) obs in
  do t <- py_getitem (PDict obs) "timestamp";
  do s <- py_isoformat t;
  Ok (dict_set "timestamp" (PStr (s ++ "Z")) obs).

Fixpoint render_all (l : list dict) : exc (list dict) :=
  match l with
  | [] => Ok []
  | obs :: r =>
      do o <- render obs;
      do r' <- render_all r;
      Ok (o :: r')
  end.

(** [try: ... except Exception:] around a body that returns a response: any
    exception becomes the 500 answer with [msg]. *)
Definition catching (msg : string) (r : exc Response) : exc Response :=
  match r with
  | Ok resp => Ok resp
  | Raise _ => Ok (mkResponse 500 (error msg))
  end.

Definition get_observations_view : view :=
  fun env req c =>
    (catching "Failed to fetch observations"
       (do observations <- find_all env c;
        do rendered <- render_all observations;
        do b <- jsonify (PDict [("status", PStr "success");
                                ("observations", PList (map PDict rendered))]);
        Ok (mkResponse 200 b)), c).

Definition get_observations : view := require_api_key get_observations_view.

Definition get_observation_view (id : string) : view :=
  fun env req c =>
    (catching "Failed to fetch observation"
       (do o <- ObjectId_of_str id;
        do found <- find_one env o c;
        match found with
        | Some obs =>
            if negb (truthy (PDict obs)) then
              Ok (mkResponse 404 (error "Observation not found"))
            else
              do rendered <- render obs;
              do b <- jsonify (PDict [("status", PStr "success");
                                      ("observation", PDict rendered)]);
              Ok (mkResponse 200 b)
        | None => Ok (mkResponse 404 (error "Observation not found"))
        end), c).

Definition get_observation (id : string) : view :=
  require_api_key (get_observation_view id).

(** ** [delete_observation] *)

Definition delete_observation_view (id : string) : view :=
  fun env req c =>
    match ObjectId_of_str id with
    | Raise _ => (Ok (mkResponse 500 (error "Failed to delete observation")), c)
    | Ok o =>
        match delete_one env o c with
        | (Raise _, c') =>
            (Ok (mkResponse 500 (error "Failed to delete observation")), c')
        | (Ok n, c') =>
            if n =? 0
            then (Ok (mkResponse 404 (error "Observation not found")), c')
            else (Ok (mkResponse 200
                        (PDict [("status", PStr "success");
                                ("message", PStr "Observation deleted successfully")])),
                  c')
        end
    end.

Definition delete_observation (id : string) : view :=
  require_api_key (delete_observation_view id).

(** ** [home] *)

Definition home : view :=
  fun env req c =>
    (Ok (mkResponse 200
           (PDict [("message", PStr "Welcome to the WildVision Observations Backend!");
                   ("endpoints",
                    PDict [("Add Observation", PStr "/api/add_observation (POST)");
                           ("Get All Observations", PStr "/api/get_observations (GET)");
                           ("Get Single Observation", PStr "/api/get_observation/<id> (GET)");
                           ("Delete Observation", PStr "/api/delete_observation/<id> (DELETE)")])])),
     c).

(** ** The URL map *)

Inductive route : Type :=
| POST_add_observation
| GET_get_observations
| GET_get_observation (id : string)
| DELETE_delete_observation (id : string)
| GET_home.

Definition serve (r : route) : view :=
  match r with
  | POST_add_observation => add_observation
  | GET_get_observations => get_observations
  | GET_get_observation id => get_observation id
  | DELETE_delete_observation id => delete_observation id
  | GET_home => home
  end.

(** ** Vocabulary of the properties *)

(** The routes wrapped in [require_api_key]. *)
Definition protected (r : route) : bool :=
  match r with
  | GET_home => false
  | _ => true
  end.

(** The required keys that a payload object omits, in their listed order. *)
Definition omitted (d : dict) : list string :=
  filter (fun f => negb (existsb (String.eqb f) (keys d))) required_fields.

(** The seven keys of an observation document. *)
Definition observation_keys : list string :=
  ["species"; "gender"; "quantity"; "latitude"; "longitude"; "userId";
   "timestamp"].

(** An observation, as the data model of the service describes it. *)
Record Observation : Type := mkObservation {
  o_id : ObjectId;
  o_species : string;
  o_gender : string;
  o_quantity : Z;
  o_latitude : pyfloat;
  o_longitude : pyfloat;
  o_userId : string;
  o_timestamp : datetime
}.

(** Its entry in the collection. *)
Definition stored (x : Observation) : ObjectId * document :=
  (o_id x,
   [("species", PStr (o_species x));
    ("gender", PStr (o_gender x));
    ("quantity", PInt (o_quantity x));
    ("latitude", PFloat (o_latitude x));
    ("longitude", PFloat (o_longitude x));
    ("userId", PStr (o_userId x));
    ("timestamp", PDatetime (o_timestamp x))]).

(** Its textual rendering: the identifier in hexadecimal, the instant in
    ISO 8601 with the zone marker, the other fields as they are. *)
Definition rendered (x : Observation) : dict :=
  [("_id", PStr (hexlify (o_id x)));
   ("species", PStr (o_species x));
   ("gender", PStr (o_gender x));
   ("quantity", PInt (o_quantity x));
   ("latitude", PFloat (o_latitude x));
   ("longitude", PFloat (o_longitude x));
   ("userId", PStr (o_userId x));
   ("timestamp", PStr (isoformat "T" (o_timestamp x) ++ "Z"))].

(** No two entries of the collection share an identifier. *)
Fixpoint unique_ids (c : collection) : bool :=
  match c with
  | [] => true
  | e :: r => negb (existsb (has_id (fst e)) r) && unique_ids r
  end.

Definition unauthorized : Response := mkResponse 401 (error "Unauthorized").

Definition not_found : Response :=
  mkResponse 404 (error "Observation not found").

Definition deleted : Response :=
  mkResponse 200 (PDict [("status", PStr "success");
                         ("message", PStr "Observation deleted successfully")]).

(** The observation that a successful add creates from validated fields. *)
Definition created (env : Env) (f : fields) : Observation :=
  mkObservation (new_oid env) (f_species f) (f_gender f) (f_quantity f)
                (f_latitude f) (f_longitude f) (f_userId f)
                (millis (utcnow env)).

Definition added (o : ObjectId) : Response :=
  mkResponse 201 (PDict [("status", PStr "success");
                         ("message", PStr "Observation added successfully");
                         ("id", PStr (hexlify o))]).

Definition found (x : Observation) : Response :=
  mkResponse 200 (PDict [("status", PStr "success");
                         ("observation", PDict (rendered x))]).

Definition listed (l : list Observation) : Response :=
  mkResponse 200
    (PDict [("status", PStr "success");
            ("observations", PList (map (fun x => PDict (rendered x)) l))]).

(** The header is absent, or is not the configured secret. *)
Definition key_missing_or_wrong (env : Env) (req : Request) : Prop :=
  x_api_key req = None \/ x_api_key req <> API_KEY env.

(** [ObjectId(id)] raises: the constructor does not take the text. *)
Definition malformed (id : string) : Prop :=
  ObjectId_of_str id = Raise InvalidId.

(** ** Sample data *)

Definition secret : string := "wildvision-key".

Definition noon : datetime := mkDatetime 2024 11 3 12 0 30 123456.

Definition env0 : Env :=
  mkEnv (Some secret) noon 1730635230 true (fun _ => true).

Definition with_key (data : pyval) : Request := mkRequest (Some secret) data.

Definition without_key (data : pyval) : Request := mkRequest None data.

(** 45.1 and -70.2 as doubles. *)
Definition lat0 : pyfloat := FFin false 6347260724825293 (-47).
Definition lon0 : pyfloat := FFin true 4939885841272013 (-46).

Definition deer : dict :=
  [("species", PStr "Deer"); ("gender", PStr "Male"); ("quantity", PInt 2);
   ("latitude", PFloat lat0); ("longitude", PFloat lon0);
   ("userId", PStr "u1")].

Definition deer_obs : Observation :=
  mkObservation (be_bytes 12 1730635230) "Deer" "Male" 2 lat0 lon0 "u1"
                (millis noon).

(** ** Further vocabulary *)

(** A body that Python takes for false: [null], [false], a zero, or an empty
    text, array or object. *)
Definition empty_body (v : pyval) : Prop :=
  v = PNone \/ v = PBool false \/ v = PInt 0 \/
  (exists s e, v = PFloat (FFin s 0 e)) \/
  v = PStr EmptyString \/ v = PList [] \/ v = PDict [].

(** A body that is a number or a boolean. *)
Definition scalar (v : pyval) : bool :=
  match v with
  | PBool _ | PInt _ | PFloat _ => true
  | _ => false
  end.

Definition first_char (s : string) : option ascii :=
  match s with
  | String c _ => Some c
  | EmptyString => None
  end.

Fixpoint last_char (s : string) : option ascii :=
  match s with
  | EmptyString => None
  | String c EmptyString => Some c
  | String _ r => last_char r
  end.

Definition not_space (c : option ascii) : bool :=
  match c with
  | Some a => negb (Py_UNICODE_ISSPACE a)
  | None => true
  end.

(** No white space at either end. *)
Definition trimmed (s : string) : bool :=
  not_space (first_char s) && not_space (last_char s).

(** What holds of every observation the service has stored. *)
Definition valid_observation (x : Observation) : Prop :=
  List.length (o_id x) = 12%nat /\
  trimmed (o_species x) = true /\
  In (o_gender x) genders /\
  1 <= o_quantity x /\
  trimmed (o_userId x) = true /\
  microsecond (o_timestamp x) mod 1000 = 0.

(** The collections that requests lead to, from the empty one. *)
Inductive reachable : collection -> Prop :=
| reach_empty : reachable []
| reach_serve r env req c :
    reachable c -> reachable (snd (serve r env req c)).

Definition upper_char (c : ascii) : ascii :=
  if between 97 (code c) 122 then chr (code c - 32) else c.

(** The text in upper case, as a client may write an identifier. *)
Definition upper (s : string) : string := string_map upper_char s.

Definition failed (msg : string) : Response := mkResponse 500 (error msg).

(** The text of an identifier as it is written: 24 hexadecimal digits. *)
Definition hex24 (id : string) : bool :=
  (String.length id =? 24)%nat &&
  string_forallb (fun c => match hex_value c with
                           | Some _ => true
                           | None => false
                           end) id.

(** The sample environment with the store of 64-bit integers. *)
Definition env64 : Env := mkEnv (Some secret) noon 1730635230 true bson_store.

Definition rejected (msg : string) : Response := mkResponse 400 (error msg).

(** * Properties *)

(** Unfolds the decorated views down to the test on the key. *)
Ltac enter_views :=
  unfold add_observation, get_observations, get_observation,
    delete_observation, require_api_key.

(** From [py_int v = Raise e] or [py_float v = Raise e] in [H], the three
    cases of [e]. *)
Ltac raised H lem :=
  apply lem in H as [-> | [-> | ->]].

(** ** The key check *)

Lemma key_rejected_of_missing_or_wrong env req :
  key_missing_or_wrong env req ->
  key_rejected (x_api_key req) (API_KEY env) = true.
Proof.
  unfold key_missing_or_wrong, key_rejected.
  destruct (x_api_key req) as [k|]; [|reflexivity].
  intros [H|H]; [discriminate|].
  destruct (API_KEY env) as [a|]; [|apply orb_true_r].
  destruct (String.eqb_spec k a) as [->|].
  - now elim H.
  - apply orb_true_r.
Qed.

Lemma key_rejected_without_secret key api_key :
  api_key = None \/ api_key = Some EmptyString ->
  key_rejected key api_key = true.
Proof.
  intros [-> | ->]; destruct key as [k|]; simpl; trivial.
  - apply orb_true_r.
  - destruct k; reflexivity.
Qed.

Lemma key_accepted_iff key api_key :
  key_rejected key api_key = false <->
  exists k, key = Some k /\ api_key = Some k /\ k <> EmptyString.
Proof.
  unfold key_rejected. split.
  - destruct key as [k|]; [|discriminate].
    destruct api_key as [a|]; [|now rewrite orb_true_r].
    intros H. apply orb_false_elim in H as [Hk Ha].
    apply negb_false_iff, String.eqb_eq in Ha. subst a.
    exists k. repeat split. intros ->. discriminate.
  - intros (k & -> & -> & Hk). rewrite String.eqb_refl.
    destruct k; [now elim Hk | reflexivity].
Qed.

Lemma protected_serve r env req c :
  protected r = true ->
  key_rejected (x_api_key req) (API_KEY env) = true ->
  serve r env req c = (Ok unauthorized, c).
Proof.
  intros Hp Hk.
  destruct r; try discriminate Hp; simpl; enter_views; now rewrite Hk.
Qed.

(** C2, as stated: every route answers 401 to a request without the right
    key.  It fails on [GET /], which is served without the check. *)
Lemma home_needs_no_key :
  ~ (forall r env req c,
        key_missing_or_wrong env req ->
        serve r env req c = (Ok unauthorized, c)).
Proof.
  intros H.
  specialize (H GET_home env0 (without_key PNone) [] (or_introl eq_refl)).
  discriminate H.
Qed.

(** C2, amended: on each of the four [/api] routes a request whose
    [x-api-key] header is absent or differs from the configured secret is
    answered 401 with the [Unauthorized] envelope, whatever its payload, and
    the collection is left as it was; [GET /] is outside the check and
    answers 200. *)
Theorem api_routes_require_key r env req c :
  key_missing_or_wrong env req ->
  (protected r = true -> serve r env req c = (Ok unauthorized, c)) /\
  (protected r = false ->
   exists b, serve r env req c = (Ok (mkResponse 200 b), c)).
Proof.
  intros Hk. split; intros Hp.
  - now apply protected_serve, key_rejected_of_missing_or_wrong.
  - destruct r; try discriminate Hp. simpl. unfold home. eauto.
Qed.

Lemma api_routes_require_key_witness :
  key_missing_or_wrong env0 (without_key (PDict deer)) /\
  serve POST_add_observation env0 (without_key (PDict deer)) [] =
    (Ok unauthorized, []).
Proof.
  split.
  - left. reflexivity.
  - apply (api_routes_require_key POST_add_observation env0
             (without_key (PDict deer)) []).
    + left. reflexivity.
    + reflexivity.
Defined.

(** C9: when the configured key is unset or empty, every request to a
    protected route is answered 401, whatever header it carries. *)
Theorem no_secret_rejects_every_key r env req c :
  protected r = true ->
  API_KEY env = None \/ API_KEY env = Some EmptyString ->
  serve r env req c = (Ok unauthorized, c).
Proof.
  intros Hp Hs. apply protected_serve; trivial.
  now apply key_rejected_without_secret.
Qed.

Lemma no_secret_rejects_every_key_witness :
  serve GET_get_observations
        (mkEnv (Some EmptyString) noon 0 true (fun _ => true))
        (mkRequest (Some EmptyString) PNone) [] = (Ok unauthorized, []).
Proof.
  apply (no_secret_rejects_every_key GET_get_observations
           (mkEnv (Some EmptyString) noon 0 true (fun _ => true))
           (mkRequest (Some EmptyString) PNone) []).
  - reflexivity.
  - right. reflexivity.
Defined.

(** ** Identifiers *)

Lemma oid_eqb_refl o : oid_eqb o o = true.
Proof.
  induction o as [|b o IH]; simpl; trivial.
  rewrite IH, andb_true_r. now apply byte_dec_lb.
Qed.

Lemma oid_eqb_eq a b : oid_eqb a b = true -> a = b.
Proof.
  revert b. induction a as [|x a IH]; intros [|y b]; simpl; try discriminate.
  - reflexivity.
  - intros H. apply andb_prop in H as [Hx Hab].
    apply byte_dec_bl in Hx. now rewrite Hx, (IH b Hab).
Qed.

Lemma fromhex_byte b r :
  fromhex (String (hex_digit (Z.of_N (Byte.to_N b) / 16))
             (String (hex_digit (Z.of_N (Byte.to_N b) mod 16)) r)) =
  option_map (cons b) (fromhex r).
Proof. destruct b; reflexivity. Qed.

Lemma fromhex_hexlify bs : fromhex (hexlify bs) = Some bs.
Proof.
  induction bs as [|b bs IH].
  - reflexivity.
  - change (hexlify (b :: bs)) with
      (String (hex_digit (Z.of_N (Byte.to_N b) / 16))
         (String (hex_digit (Z.of_N (Byte.to_N b) mod 16)) (hexlify bs))).
    now rewrite fromhex_byte, IH.
Qed.

Lemma length_hexlify bs :
  String.length (hexlify bs) = (2 * List.length bs)%nat.
Proof.
  induction bs as [|b bs IH]; simpl; trivial.
  rewrite IH. lia.
Qed.

(** The text of a twelve-byte identifier reads back as that identifier. *)
Lemma ObjectId_of_str_hexlify o :
  List.length o = 12%nat -> ObjectId_of_str (hexlify o) = Ok o.
Proof.
  intros H. unfold ObjectId_of_str.
  now rewrite length_hexlify, H, fromhex_hexlify.
Qed.

Lemma length_be_bytes w n : List.length (be_bytes w n) = w.
Proof.
  revert n. induction w as [|w IH]; intros n; simpl; trivial.
  rewrite length_app, IH. simpl. lia.
Qed.

(** The constructor fails in one way only. *)
Lemma ObjectId_of_str_raises id e :
  ObjectId_of_str id = Raise e -> e = InvalidId.
Proof.
  unfold ObjectId_of_str.
  destruct (String.length id =? 24)%nat; [destruct (fromhex id)|];
    congruence.
Qed.

(** Malformed is: not 24 characters, or not read by [bytes.fromhex]. *)
Lemma malformed_iff id :
  malformed id <-> String.length id <> 24%nat \/ fromhex id = None.
Proof.
  unfold malformed, ObjectId_of_str.
  destruct (Nat.eqb_spec (String.length id) 24) as [E|E].
  - destruct (fromhex id); split; intros H; try tauto; try discriminate.
    destruct H as [H|H]; [now elim H | discriminate].
  - tauto.
Qed.

(** ** The store *)

Lemma remove_first_absent o c :
  existsb (has_id o) c = false -> remove_first o c = c.
Proof.
  induction c as [|e r IH]; simpl; trivial.
  intros H. apply orb_false_elim in H as [He Hr].
  now rewrite He, IH.
Qed.

Lemma remove_first_present o c :
  existsb (has_id o) c = true ->
  S (List.length (remove_first o c)) = List.length c.
Proof.
  induction c as [|e r IH]; simpl; [discriminate|].
  destruct (has_id o e); simpl; trivial.
  intros H. now rewrite IH.
Qed.

Lemma remove_first_gone o c :
  unique_ids c = true -> existsb (has_id o) (remove_first o c) = false.
Proof.
  induction c as [|e r IH]; simpl; trivial.
  intros H. apply andb_prop in H as [He Hr].
  destruct (has_id o e) eqn:Ho.
  - apply oid_eqb_eq in Ho. subst o. now apply negb_true_iff.
  - simpl. now rewrite Ho, IH.
Qed.

Lemma existsb_remove_first o o' c :
  existsb (has_id o') (remove_first o c) = true ->
  existsb (has_id o') c = true.
Proof.
  induction c as [|e r IH]; simpl; trivial.
  destruct (has_id o e); simpl.
  - intros ->. apply orb_true_r.
  - intros H. apply orb_prop in H as [H|H].
    + now rewrite H.
    + rewrite IH by trivial. apply orb_true_r.
Qed.

(** Deleting keeps the identifiers distinct. *)
Lemma unique_ids_remove_first o c :
  unique_ids c = true -> unique_ids (remove_first o c) = true.
Proof.
  induction c as [|e r IH]; simpl; trivial.
  intros H. apply andb_prop in H as [He Hr].
  destruct (has_id o e); simpl; trivial.
  rewrite IH, andb_true_r by trivial.
  apply negb_true_iff. apply negb_true_iff in He.
  destruct (existsb (has_id (fst e)) (remove_first o r)) eqn:E; trivial.
  apply existsb_remove_first in E. congruence.
Qed.

Lemma existsb_has_id_app o c e :
  existsb (has_id o) (c ++ [e]) = existsb (has_id o) c || has_id o e.
Proof. now rewrite existsb_app; simpl; rewrite orb_false_r. Qed.

Lemma has_id_sym a b x y :
  has_id a (b, x) = has_id b (a, y).
Proof.
  unfold has_id; simpl.
  destruct (oid_eqb b a) eqn:E.
  - apply oid_eqb_eq in E. subst. now rewrite oid_eqb_refl.
  - destruct (oid_eqb a b) eqn:E'; trivial.
    apply oid_eqb_eq in E'. subst. now rewrite oid_eqb_refl in E.
Qed.

(** Inserting keeps the identifiers distinct: the server refuses a
    duplicate. *)
Lemma unique_ids_insert_one env doc c r c' :
  unique_ids c = true ->
  insert_one env doc c = (r, c') -> unique_ids c' = true.
Proof.
  unfold insert_one. intros Hu.
  destruct (negb (store_up env) || negb (store_accepts env doc));
    [congruence|].
  destruct (existsb (has_id (new_oid env)) c) eqn:Ex; [congruence|].
  intros H. injection H as _ <-.
  revert Hu Ex. induction c as [|e r' IH]; simpl; trivial.
  intros Hu Ex. apply andb_prop in Hu as [He Hr].
  apply orb_false_elim in Ex as [Ex1 Ex2].
  rewrite IH, andb_true_r by trivial.
  rewrite existsb_has_id_app. apply negb_true_iff in He. rewrite He. simpl.
  destruct e as [a x]. simpl.
  now rewrite (has_id_sym a (new_oid env) _ x), Ex1.
Qed.

Lemma find_app_new o d c :
  existsb (has_id o) c = false ->
  find (has_id o) (c ++ [(o, d)]) = Some (o, d).
Proof.
  induction c as [|e r IH]; simpl.
  - intros _. unfold has_id. simpl. now rewrite oid_eqb_refl.
  - intros H. apply orb_false_elim in H as [He Hr]. now rewrite He, IH.
Qed.

(** ** Malformed identifiers *)

Lemma hex_digit_is_not_space c h :
  hex_value c = Some h -> Py_ISSPACE c = false.
Proof.
  destruct c as [[] [] [] [] [] [] [] []]; vm_compute; intros H;
    first [reflexivity | discriminate H].
Qed.

Lemma fromhex_hex_digits n :
  forall s,
    String.length s = (2 * n)%nat ->
    string_forallb (fun c => match hex_value c with
                             | Some _ => true
                             | None => false
                             end) s = true ->
    exists bs, fromhex s = Some bs /\ List.length bs = n.
Proof.
  induction n as [|n IH]; intros s Hlen Hall.
  - destruct s; [|discriminate Hlen]. now exists [].
  - destruct s as [|c1 [|c2 r]]; try (simpl in Hlen; lia).
    cbn [string_forallb] in Hall.
    apply andb_prop in Hall as [H1 Hall].
    apply andb_prop in Hall as [H2 Hall].
    destruct (hex_value c1) as [h1|] eqn:E1; [|discriminate H1].
    destruct (hex_value c2) as [h2|] eqn:E2; [|discriminate H2].
    destruct (IH r) as (bs & Hbs & Hn); trivial.
    { simpl in Hlen. lia. }
    exists (byte_of_Z (16 * h1 + h2) :: bs).
    cbn [fromhex]. rewrite (hex_digit_is_not_space c1 h1 E1), E1, E2, Hbs.
    split; [reflexivity | simpl; now rewrite Hn].
Qed.

(** The constructor takes every identifier as it is written, and reads
    twelve bytes. *)
Lemma hex24_is_read id :
  hex24 id = true ->
  exists o, ObjectId_of_str id = Ok o /\ List.length o = 12%nat.
Proof.
  unfold hex24, ObjectId_of_str. intros H.
  apply andb_prop in H as [Hlen Hall]. rewrite Hlen.
  apply Nat.eqb_eq in Hlen.
  destruct (fromhex_hex_digits 12 id Hlen Hall) as (bs & -> & Hn). eauto.
Qed.

(** C7, as stated: every text that is not an identifier (24 hexadecimal
    digits) is answered 500 by both views.  It fails on a text of 24
    characters made of hexadecimal pairs and blanks: the constructor takes
    it, nothing is stored under what it reads, and the answer is 404. *)
Lemma blank_separated_id_is_looked_up :
  ~ (forall id env req c,
        key_rejected (x_api_key req) (API_KEY env) = false ->
        hex24 id = false ->
        get_observation id env req c =
          (Ok (mkResponse 500 (error "Failed to fetch observation")), c) /\
        delete_observation id env req c =
          (Ok (mkResponse 500 (error "Failed to delete observation")), c)).
Proof.
  intros H.
  destruct (H "00 00 00 00 67 27 65 de " env0 (with_key PNone)
              [stored deer_obs] eq_refl eq_refl) as [H1 _].
  assert (E : get_observation "00 00 00 00 67 27 65 de " env0
                (with_key PNone) [stored deer_obs] =
              (Ok not_found, [stored deer_obs]))
    by (vm_compute; reflexivity).
  rewrite E in H1. discriminate H1.
Qed.

(** C7, amended: when the constructor rejects the identifier in the path
    (a text that is not 24 characters long, or that [bytes.fromhex] does not
    read as pairs of hexadecimal digits with at most white space between
    the pairs), [get_observation] and [delete_observation] answer 500 with
    their error envelope; no exception leaves the view and the collection
    is left as it was. *)
Theorem malformed_id_answers_500 id env req c :
  key_rejected (x_api_key req) (API_KEY env) = false ->
  malformed id ->
  get_observation id env req c =
    (Ok (mkResponse 500 (error "Failed to fetch observation")), c) /\
  delete_observation id env req c =
    (Ok (mkResponse 500 (error "Failed to delete observation")), c).
Proof.
  unfold malformed. enter_views.
  unfold get_observation_view, delete_observation_view.
  intros -> ->. split; reflexivity.
Qed.

Lemma malformed_id_answers_500_witness :
  malformed "not-an-id" /\
  get_observation "not-an-id" env0 (with_key PNone) [stored deer_obs] =
    (Ok (mkResponse 500 (error "Failed to fetch observation")),
     [stored deer_obs]) /\
  delete_observation "not-an-id" env0 (with_key PNone) [stored deer_obs] =
    (Ok (mkResponse 500 (error "Failed to delete observation")),
     [stored deer_obs]).
Proof.
  split.
  - reflexivity.
  - apply (malformed_id_answers_500 "not-an-id" env0 (with_key PNone)
             [stored deer_obs]); reflexivity.
Defined.

(** ** Deleting *)

(** C6: a delete that finds no record under the identifier answers 404 and
    removes nothing; a delete that finds one answers 200 and removes it, and
    the same delete repeated then answers 404. *)
Theorem delete_twice_is_not_found id o env env' req req' c :
  key_rejected (x_api_key req) (API_KEY env) = false ->
  key_rejected (x_api_key req') (API_KEY env') = false ->
  store_up env = true ->
  store_up env' = true ->
  ObjectId_of_str id = Ok o ->
  unique_ids c = true ->
  (existsb (has_id o) c = false ->
   delete_observation id env req c = (Ok not_found, c)) /\
  (existsb (has_id o) c = true ->
   delete_observation id env req c = (Ok deleted, remove_first o c) /\
   S (List.length (remove_first o c)) = List.length c /\
   delete_observation id env' req' (remove_first o c) =
     (Ok not_found, remove_first o c)).
Proof.
  intros Hk Hk' Hs Hs' Hid Hu.
  enter_views. unfold delete_observation_view, delete_one.
  rewrite Hk, Hk', Hid, Hs, Hs'. split; intros Hex.
  - now rewrite Hex, remove_first_absent.
  - rewrite Hex. simpl. split; [reflexivity|]. split.
    + now apply remove_first_present.
    + rewrite (remove_first_gone o c Hu). simpl.
      now rewrite remove_first_absent by now apply remove_first_gone.
Qed.

Lemma delete_twice_is_not_found_witness :
  delete_observation (hexlify (o_id deer_obs)) env0 (with_key PNone)
    [stored deer_obs] = (Ok deleted, []) /\
  delete_observation (hexlify (o_id deer_obs)) env0 (with_key PNone) [] =
    (Ok not_found, []).
Proof.
  destruct (delete_twice_is_not_found (hexlify (o_id deer_obs))
              (o_id deer_obs) env0 env0 (with_key PNone) (with_key PNone)
              [stored deer_obs]) as [_ H]; try reflexivity.
  destruct (H eq_refl) as (H1 & _ & H2). split; [exact H1 | exact H2].
Defined.

(** ** Payload objects *)

Lemma py_in_dict k d :
  py_in k (PDict d) = Ok (existsb (String.eqb k) (keys d)).
Proof.
  simpl. f_equal. unfold keys.
  induction d as [|[k' v] r IH]; simpl; trivial.
  now rewrite IH, String.eqb_sym.
Qed.

Lemma lookup_keys k d :
  existsb (String.eqb k) (keys d) = match lookup k d with
                                    | Some _ => true
                                    | None => false
                                    end.
Proof.
  induction d as [|[k' v] r IH]; simpl; trivial.
  rewrite String.eqb_sym. destruct (k' =? k)%string; simpl; trivial.
Qed.

Lemma missing_fields_dict d l :
  missing_fields (PDict d) l =
  Ok (filter (fun f => negb (existsb (String.eqb f) (keys d))) l).
Proof.
  induction l as [|f r IH].
  - reflexivity.
  - change (missing_fields (PDict d) (f :: r)) with
      (do b <- py_in f (PDict d);
       do m <- missing_fields (PDict d) r;
       Ok (if b then m else f :: m)).
    rewrite py_in_dict, IH. simpl.
    now destruct (existsb (String.eqb f) (keys d)).
Qed.

(** [omitted] lists the required keys that are not in the object, and
    nothing else. *)
Lemma omitted_spec d f :
  In f (omitted d) <-> In f required_fields /\ lookup f d = None.
Proof.
  unfold omitted. rewrite filter_In, lookup_keys.
  destruct (lookup f d); simpl; intuition congruence.
Qed.

Lemma truthy_dict d : d <> [] -> truthy (PDict d) = true.
Proof. destruct d; [congruence | reflexivity]. Qed.

(** C3: a non-empty payload object that omits some of the six required keys
    is answered 400 with a message that lists the omitted keys, those and no
    others, and the collection is left as it was. *)
Theorem missing_keys_are_named env req c d :
  key_rejected (x_api_key req) (API_KEY env) = false ->
  get_json req = PDict d ->
  d <> [] ->
  omitted d <> [] ->
  add_observation env req c =
    (Ok (mkResponse 400
           (error ("Missing fields: " ++ join ", " (omitted d)))), c) /\
  (forall f, In f (omitted d) <-> In f required_fields /\ lookup f d = None).
Proof.
  intros Hk Hd Hne Hom. split; [|apply omitted_spec].
  enter_views. unfold add_observation_view.
  rewrite Hk, Hd, truthy_dict, missing_fields_dict by trivial. simpl negb.
  fold (omitted d). cbv iota.
  destruct (omitted d); [now elim Hom | reflexivity].
Qed.

Lemma missing_keys_are_named_witness :
  add_observation env0
    (with_key (PDict [("species", PStr "Deer"); ("quantity", PInt 2);
                      ("latitude", PFloat lat0); ("note", PStr "dusk")]))
    [stored deer_obs] =
  (Ok (mkResponse 400 (error "Missing fields: gender, longitude, userId")),
   [stored deer_obs]).
Proof.
  refine (proj1 (missing_keys_are_named env0
                   (with_key (PDict [("species", PStr "Deer");
                                     ("quantity", PInt 2);
                                     ("latitude", PFloat lat0);
                                     ("note", PStr "dusk")]))
                   [stored deer_obs]
                   [("species", PStr "Deer"); ("quantity", PInt 2);
                    ("latitude", PFloat lat0); ("note", PStr "dusk")]
                   _ _ _ _)).
  - reflexivity.
  - reflexivity.
  - discriminate.
  - discriminate.
Defined.

(** ** Adding *)

Lemma existsb_eqb_In s l : In s l -> existsb (String.eqb s) l = true.
Proof.
  intros H. apply existsb_exists. exists s. split; trivial.
  apply String.eqb_refl.
Qed.

Lemma existsb_eqb_not_In s l : ~ In s l -> existsb (String.eqb s) l = false.
Proof.
  intros H. destruct (existsb (String.eqb s) l) eqn:E; trivial.
  apply existsb_exists in E as (x & Hx & Hsx).
  apply String.eqb_eq in Hsx. subst x. now elim H.
Qed.

Section SixKeys.

Variables (env : Env) (req : Request) (c : collection) (d : dict).
Variables vs vg vq vla vlo vu : pyval.

Hypothesis Hkey : key_rejected (x_api_key req) (API_KEY env) = false.
Hypothesis Hjson : get_json req = PDict d.
Hypothesis Hs : lookup "species" d = Some vs.
Hypothesis Hg : lookup "gender" d = Some vg.
Hypothesis Hq : lookup "quantity" d = Some vq.
Hypothesis Hla : lookup "latitude" d = Some vla.
Hypothesis Hlo : lookup "longitude" d = Some vlo.
Hypothesis Hu : lookup "userId" d = Some vu.

Lemma extract_six_keys :
  extract (PDict d) =
  (do q <- py_int vq;
   do la <- py_float vla;
   do lo <- py_float vlo;
   Ok (mkFields (strip (py_str vs)) (strip (py_str vg)) q la lo
                (strip (py_str vu)))).
Proof.
  unfold extract, py_getitem.
  rewrite Hs, Hg, Hq, Hla, Hlo, Hu. reflexivity.
Qed.

(** With the six keys present the view reaches the [try] block. *)
Lemma add_observation_six_keys :
  add_observation env req c =
  match validate (PDict d) with
  | Raise ValueError | Raise TypeError =>
      (Ok (mkResponse 400 (error "Invalid data types provided")), c)
  | Raise e => (Raise e, c)
  | Ok (inl r) => (Ok r, c)
  | Ok (inr f) =>
      match insert_one env (observation f (utcnow env)) c with
      | (Ok o, c') => (Ok (added o), c')
      | (Raise _, c') =>
          (Ok (mkResponse 500 (error "Failed to add observation")), c')
      end
  end.
Proof.
  enter_views. unfold add_observation_view.
  rewrite Hkey, Hjson. rewrite truthy_dict.
  2:{ intros ->. discriminate Hs. }
  rewrite missing_fields_dict. unfold required_fields. cbn [filter].
  rewrite !lookup_keys, Hs, Hg, Hq, Hla, Hlo, Hu. reflexivity.
Qed.

Variables (q : Z) (la lo : pyfloat).

Hypothesis Hgender : In (strip (py_str vg)) genders.
Hypothesis Hint : py_int vq = Ok q.
Hypothesis Hpos : 1 <= q.
Hypothesis Hlat : py_float vla = Ok la.
Hypothesis Hlon : py_float vlo = Ok lo.

Lemma validate_valid :
  validate (PDict d) =
  Ok (inr (mkFields (strip (py_str vs)) (strip (py_str vg)) q la lo
                    (strip (py_str vu)))).
Proof.
  unfold validate. rewrite extract_six_keys, Hint, Hlat, Hlon.
  cbn [bind f_gender f_quantity].
  rewrite existsb_eqb_In by trivial.
  destruct (Z.ltb_spec q 1); [lia | reflexivity].
Qed.

(** When the store does not take the document the answer is 500 and nothing
    is stored. *)
Lemma add_observation_store_failure :
  store_up env = false \/
  store_accepts env
    (observation (mkFields (strip (py_str vs)) (strip (py_str vg)) q la lo
                           (strip (py_str vu))) (utcnow env)) = false \/
  existsb (has_id (new_oid env)) c = true ->
  add_observation env req c =
  (Ok (mkResponse 500 (error "Failed to add observation")), c).
Proof.
  intros H. rewrite add_observation_six_keys, validate_valid.
  unfold insert_one.
  destruct (store_up env); [|reflexivity].
  destruct (store_accepts env _); [|reflexivity].
  destruct (existsb (has_id (new_oid env)) c); [reflexivity|].
  destruct H as [H|[H|H]]; discriminate H.
Qed.

Hypothesis Hup : store_up env = true.
Hypothesis Hacc :
  store_accepts env
    (observation (mkFields (strip (py_str vs)) (strip (py_str vg)) q la lo
                           (strip (py_str vu))) (utcnow env)) = true.
Hypothesis Hfresh : existsb (has_id (new_oid env)) c = false.

(** A valid payload is stored as the observation made of its coerced
    fields, the driver's identifier and the clock's instant. *)
Lemma add_observation_valid :
  add_observation env req c =
  (Ok (added (new_oid env)),
   (c ++ [stored (created env
                    (mkFields (strip (py_str vs)) (strip (py_str vg)) q la
                              lo (strip (py_str vu))))])%list).
Proof.
  rewrite add_observation_six_keys, validate_valid.
  unfold insert_one. rewrite Hup, Hacc, Hfresh. reflexivity.
Qed.

End SixKeys.

Lemma render_stored x : render (with_id (stored x)) = Ok (rendered x).
Proof. reflexivity. Qed.

Lemma jsonable_rendered x : jsonable (PDict (rendered x)) = true.
Proof. reflexivity. Qed.

Lemma get_observation_stored env req c x :
  key_rejected (x_api_key req) (API_KEY env) = false ->
  store_up env = true ->
  List.length (o_id x) = 12%nat ->
  find (has_id (o_id x)) c = Some (stored x) ->
  get_observation (hexlify (o_id x)) env req c = (Ok (found x), c).
Proof.
  intros Hk Hup Hlen Hfind.
  enter_views. unfold get_observation_view, find_one.
  rewrite Hk, ObjectId_of_str_hexlify by trivial. cbn [bind].
  rewrite Hup, Hfind. reflexivity.
Qed.

(** The 64-bit store takes an observation exactly when its quantity has 64
    bits. *)
Lemma bson_store_observation f now :
  bson_store (observation f now) = int64 (f_quantity f).
Proof. unfold bson_store, observation. simpl. apply andb_true_r. Qed.

(** C1, as stated: every payload with the six fields and valid values is
    added and read back.  It fails, even with the key, a store that answers
    and a fresh identifier, on a quantity of 2^63: the value is valid by the
    claim's list, the driver cannot encode it, [insert_one] raises, and the
    answer is 500 with nothing stored. *)
Lemma quantity_of_2_63_is_not_stored :
  ~ (forall env env' req req' c d vs vg vq vla vlo vu q la lo,
        key_rejected (x_api_key req) (API_KEY env) = false ->
        get_json req = PDict d ->
        lookup "species" d = Some vs ->
        lookup "gender" d = Some vg ->
        lookup "quantity" d = Some vq ->
        lookup "latitude" d = Some vla ->
        lookup "longitude" d = Some vlo ->
        lookup "userId" d = Some vu ->
        In (strip (py_str vg)) genders ->
        py_int vq = Ok q ->
        1 <= q ->
        py_float vla = Ok la ->
        py_float vlo = Ok lo ->
        store_up env = true ->
        existsb (has_id (new_oid env)) c = false ->
        key_rejected (x_api_key req') (API_KEY env') = false ->
        store_up env' = true ->
        let x := mkObservation (new_oid env) (strip (py_str vs))
                   (strip (py_str vg)) q la lo (strip (py_str vu))
                   (millis (utcnow env)) in
        add_observation env req c =
          (Ok (added (new_oid env)), (c ++ [stored x])%list) /\
        get_observation (hexlify (new_oid env)) env' req'
          (c ++ [stored x])%list =
          (Ok (found x), (c ++ [stored x])%list)).
Proof.
  intros H.
  assert (Hg : In (strip (py_str (PStr "Male"))) genders) by (simpl; tauto).
  assert (Hq : 1 <= 2 ^ 63) by (vm_compute; discriminate).
  specialize (H env64 env64
                (with_key (PDict (dict_set "quantity" (PInt (2 ^ 63)) deer)))
                (with_key PNone) []
                (dict_set "quantity" (PInt (2 ^ 63)) deer)
                (PStr "Deer") (PStr "Male") (PInt (2 ^ 63)) (PFloat lat0)
                (PFloat lon0) (PStr "u1") (2 ^ 63) lat0 lon0
                eq_refl eq_refl eq_refl eq_refl eq_refl eq_refl eq_refl
                eq_refl Hg eq_refl Hq eq_refl eq_refl eq_refl eq_refl eq_refl
                eq_refl).
  destruct H as [H _].
  assert (E : add_observation env64
                (with_key (PDict (dict_set "quantity" (PInt (2 ^ 63)) deer)))
                [] = (Ok (failed "Failed to add observation"), []))
    by (vm_compute; reflexivity).
  rewrite E in H. discriminate H.
Qed.

(** C1, amended: a payload with the six required fields and valid values
    (gender in the enumeration, quantity coercing to an integer at least 1,
    latitude and longitude coercing to floats) is answered 201 with the
    generated identifier whenever the store takes the document, and
    [get_observation] on that identifier answers the record whose six fields
    are the coerced inputs and whose timestamp is the clock's instant at the
    add, in the store's milliseconds; nothing of it comes from the payload.
    Both requests carry the key, the store answers both calls, and the
    generated identifier is not in the collection yet. *)
Theorem add_then_get_round_trip
  env env' req req' c d vs vg vq vla vlo vu q la lo :
  key_rejected (x_api_key req) (API_KEY env) = false ->
  get_json req = PDict d ->
  lookup "species" d = Some vs ->
  lookup "gender" d = Some vg ->
  lookup "quantity" d = Some vq ->
  lookup "latitude" d = Some vla ->
  lookup "longitude" d = Some vlo ->
  lookup "userId" d = Some vu ->
  In (strip (py_str vg)) genders ->
  py_int vq = Ok q ->
  1 <= q ->
  py_float vla = Ok la ->
  py_float vlo = Ok lo ->
  store_up env = true ->
  store_accepts env
    (observation (mkFields (strip (py_str vs)) (strip (py_str vg)) q la lo
                           (strip (py_str vu))) (utcnow env)) = true ->
  existsb (has_id (new_oid env)) c = false ->
  key_rejected (x_api_key req') (API_KEY env') = false ->
  store_up env' = true ->
  let x := mkObservation (new_oid env) (strip (py_str vs))
             (strip (py_str vg)) q la lo (strip (py_str vu))
             (millis (utcnow env)) in
  add_observation env req c =
    (Ok (added (new_oid env)), (c ++ [stored x])%list) /\
  get_observation (hexlify (new_oid env)) env' req' (c ++ [stored x])%list =
    (Ok (found x), (c ++ [stored x])%list).
Proof.
  intros Hk Hj Hs Hg Hq Hla Hlo Hu Hgen Hint Hpos Hlat Hlon Hup Hacc Hfresh
    Hk' Hup' x.
  split.
  - exact (add_observation_valid env req c d vs vg vq vla vlo vu Hk Hj Hs Hg
             Hq Hla Hlo Hu q la lo Hgen Hint Hpos Hlat Hlon Hup Hacc Hfresh).
  - apply (get_observation_stored env' req' _ x Hk' Hup').
    + exact (length_be_bytes 12 (oid_seed env)).
    + now apply find_app_new.
Qed.

Lemma add_then_get_round_trip_witness :
  add_observation env0
    (with_key (PDict (deer ++ [("timestamp", PStr "1999-01-01T00:00:00Z")])))
    [] = (Ok (added (o_id deer_obs)), [stored deer_obs]) /\
  get_observation "0000000000000000672765de" env0 (with_key PNone)
    [stored deer_obs] = (Ok (found deer_obs), [stored deer_obs]).
Proof.
  refine (add_then_get_round_trip env0 env0
            (with_key (PDict (deer ++ [("timestamp",
                                       PStr "1999-01-01T00:00:00Z")])))
            (with_key PNone) []
            (deer ++ [("timestamp", PStr "1999-01-01T00:00:00Z")])
            (PStr "Deer") (PStr "Male") (PInt 2) (PFloat lat0) (PFloat lon0)
            (PStr "u1") 2 lat0 lon0 _ _ _ _ _ _ _ _ _ _ _ _ _ _ _ _ _ _);
    try reflexivity.
  - simpl. tauto.
  - lia.
Defined.

(** C10: for a valid payload the document that is persisted, under the
    identifier the driver generates, has exactly the seven keys [species],
    [gender], [quantity], [latitude], [longitude], [userId] and [timestamp];
    its timestamp is the clock's, and every other key of the payload is
    ignored: a payload that agrees on the six required keys is answered and
    stored in the same way. *)
Theorem stored_document_has_seven_keys
  env req c d vs vg vq vla vlo vu q la lo :
  key_rejected (x_api_key req) (API_KEY env) = false ->
  get_json req = PDict d ->
  lookup "species" d = Some vs ->
  lookup "gender" d = Some vg ->
  lookup "quantity" d = Some vq ->
  lookup "latitude" d = Some vla ->
  lookup "longitude" d = Some vlo ->
  lookup "userId" d = Some vu ->
  In (strip (py_str vg)) genders ->
  py_int vq = Ok q ->
  1 <= q ->
  py_float vla = Ok la ->
  py_float vlo = Ok lo ->
  store_up env = true ->
  store_accepts env
    (observation (mkFields (strip (py_str vs)) (strip (py_str vg)) q la lo
                           (strip (py_str vu))) (utcnow env)) = true ->
  existsb (has_id (new_oid env)) c = false ->
  exists doc,
    snd (add_observation env req c) = (c ++ [(new_oid env, doc)])%list /\
    keys doc = observation_keys /\
    lookup "timestamp" doc = Some (PDatetime (millis (utcnow env))) /\
    forall d',
      (forall k, In k required_fields -> lookup k d' = lookup k d) ->
      add_observation env (mkRequest (x_api_key req) (PDict d')) c =
      add_observation env req c.
Proof.
  intros Hk Hj Hs Hg Hq Hla Hlo Hu Hgen Hint Hpos Hlat Hlon Hup Hacc Hfresh.
  pose proof (add_observation_valid env req c d vs vg vq vla vlo vu Hk Hj Hs
                Hg Hq Hla Hlo Hu q la lo Hgen Hint Hpos Hlat Hlon Hup Hacc
                Hfresh) as Hadd.
  eexists. rewrite Hadd. repeat split.
  intros d' Hd'.
  apply (add_observation_valid env (mkRequest (x_api_key req) (PDict d')) c
           d' vs vg vq vla vlo vu); trivial;
    rewrite Hd'; trivial; unfold required_fields; simpl; tauto.
Qed.

Lemma stored_document_has_seven_keys_witness :
  exists doc,
    snd (add_observation env0
           (with_key (PDict (("_id", PStr "mine") :: deer ++
                             [("timestamp", PStr "1999-01-01T00:00:00Z")])))
           []) = [(new_oid env0, doc)] /\
    keys doc = observation_keys /\
    lookup "timestamp" doc = Some (PDatetime (millis noon)).
Proof.
  destruct (stored_document_has_seven_keys env0
              (with_key (PDict (("_id", PStr "mine") :: deer ++
                                [("timestamp", PStr "1999-01-01T00:00:00Z")])))
              []
              (("_id", PStr "mine") :: deer ++
               [("timestamp", PStr "1999-01-01T00:00:00Z")])%list
              (PStr "Deer") (PStr "Male") (PInt 2) (PFloat lat0)
              (PFloat lon0) (PStr "u1") 2 lat0 lon0)
    as (doc & H1 & H2 & H3 & _); try reflexivity.
  - simpl. tauto.
  - lia.
  - exists doc. split; [exact H1 | split; [exact H2 | exact H3]].
Defined.

(** ** Reading *)

Lemma render_all_stored l :
  render_all (map with_id (map stored l)) = Ok (map rendered l).
Proof.
  induction l as [|x l IH].
  - reflexivity.
  - change (render_all (map with_id (map stored (x :: l)))) with
      (do o <- render (with_id (stored x));
       do r <- render_all (map with_id (map stored l));
       Ok (o :: r)).
    now rewrite render_stored, IH.
Qed.

Lemma jsonable_rendered_all l :
  forallb jsonable (map PDict (map rendered l)) = true.
Proof.
  induction l as [|x l IH]; [reflexivity|].
  cbn [map forallb]. now rewrite jsonable_rendered, IH.
Qed.

Lemma find_unique e c :
  unique_ids c = true -> In e c -> find (has_id (fst e)) c = Some e.
Proof.
  induction c as [|e0 r IH]; simpl; [tauto|].
  intros Hu [->|Hin].
  - unfold has_id at 1. now rewrite oid_eqb_refl.
  - apply andb_prop in Hu as [He Hr].
    destruct (has_id (fst e) e0) eqn:E.
    + unfold has_id in E. apply oid_eqb_eq in E.
      apply negb_true_iff in He.
      assert (existsb (has_id (fst e0)) r = true); [|congruence].
      apply existsb_exists. exists e. split; trivial.
      unfold has_id. rewrite E. apply oid_eqb_refl.
    + now apply IH.
Qed.

(** C8: [get_observations] answers every stored observation, in storage
    order, with its identifier as the hexadecimal text of the identifier and
    its timestamp as ISO 8601 text followed by [Z]; [get_observation]
    answers its one observation in the same rendering. *)
Theorem reads_render_text env req l :
  key_rejected (x_api_key req) (API_KEY env) = false ->
  store_up env = true ->
  get_observations env req (map stored l) = (Ok (listed l), map stored l) /\
  (forall x,
     In x l ->
     unique_ids (map stored l) = true ->
     List.length (o_id x) = 12%nat ->
     get_observation (hexlify (o_id x)) env req (map stored l) =
       (Ok (found x), map stored l)) /\
  (forall x,
     lookup "_id" (rendered x) = Some (PStr (hexlify (o_id x))) /\
     lookup "timestamp" (rendered x) =
       Some (PStr (isoformat "T" (o_timestamp x) ++ "Z"))).
Proof.
  intros Hk Hup. split; [|split].
  - enter_views. unfold get_observations_view, find_all, jsonify.
    rewrite Hk, Hup. cbn [bind]. rewrite render_all_stored. cbn [bind].
    cbn [jsonable forallb]. rewrite jsonable_rendered_all.
    unfold listed. now rewrite map_map.
  - intros x Hin Hu Hlen.
    apply get_observation_stored; trivial.
    apply (find_unique (stored x)); trivial.
    now apply in_map.
  - intros x. split; reflexivity.
Qed.

Lemma reads_render_text_witness :
  get_observations env0 (with_key PNone) [stored deer_obs] =
    (Ok (listed [deer_obs]), [stored deer_obs]) /\
  get_observation "0000000000000000672765de" env0 (with_key PNone)
    [stored deer_obs] = (Ok (found deer_obs), [stored deer_obs]) /\
  lookup "timestamp" (rendered deer_obs) =
    Some (PStr "2024-11-03T12:00:30.123000Z").
Proof.
  destruct (reads_render_text env0 (with_key PNone) [deer_obs])
    as (H1 & H2 & H3); try reflexivity.
  split; [exact H1 | split].
  - apply (H2 deer_obs); [left|..]; reflexivity.
  - exact (proj2 (H3 deer_obs)).
Defined.

(** ** Rejections, and the coercion that escapes *)

Lemma int_of_str_raises s e : int_of_str s = Raise e -> e = ValueError.
Proof.
  unfold int_of_str.
  destruct (split_sign _) as [neg r].
  destruct (parse_digits r 0 false); [|congruence].
  destruct (_ <? _); congruence.
Qed.

Lemma float_of_str_raises s e : float_of_str s = Raise e -> e = ValueError.
Proof.
  unfold float_of_str, parse_decimal.
  destruct (drop_underscores _ _) as [u|]; [|congruence].
  destruct (split_sign u) as [neg r].
  destruct (_ || _); [congruence|].
  destruct (_ =? _)%string; [congruence|].
  destruct (take_digits r 0 0) as [[ip ni] r1].
  destruct (match r1 with
            | String c r0 => if code c =? 46 then take_digits r0 ip 0
                             else (ip, 0, r1)
            | EmptyString => (ip, 0, r1)
            end) as [[fp nf] r2].
  destruct (0 <? ni + nf); [|congruence].
  destruct (parse_exponent r2); congruence.
Qed.

Lemma float_of_int_raises n e : float_of_int n = Raise e -> e = OverflowError.
Proof.
  unfold float_of_int.
  destruct (n =? 0); [congruence|].
  destruct (round_pos (Z.abs n) 1) as [[m x]|]; congruence.
Qed.

Lemma py_int_raises v e :
  py_int v = Raise e ->
  e = TypeError \/ e = ValueError \/ e = OverflowError.
Proof.
  destruct v as [ |b|n|x|s|l|d|o|t]; simpl; try (intros [= <-]; tauto);
    try discriminate.
  - destruct x; simpl; intros [= <-]; tauto.
  - intros H. apply int_of_str_raises in H. tauto.
Qed.

Lemma py_float_raises v e :
  py_float v = Raise e ->
  e = TypeError \/ e = ValueError \/ e = OverflowError.
Proof.
  destruct v as [ |b|n|x|s|l|d|o|t]; simpl; try (intros [= <-]; tauto);
    try discriminate.
  - intros H. apply float_of_int_raises in H. tauto.
  - intros H. apply float_of_int_raises in H. tauto.
  - intros H. apply float_of_str_raises in H. tauto.
Qed.

(** With the six keys present, a gender outside the enumeration or a
    quantity that coerces below 1 is answered 400 and nothing is stored,
    as long as no numeric coercion raises [OverflowError]. *)
Lemma invalid_payload_answers_400 env req c d vs vg vq vla vlo vu :
  key_rejected (x_api_key req) (API_KEY env) = false ->
  get_json req = PDict d ->
  lookup "species" d = Some vs ->
  lookup "gender" d = Some vg ->
  lookup "quantity" d = Some vq ->
  lookup "latitude" d = Some vla ->
  lookup "longitude" d = Some vlo ->
  lookup "userId" d = Some vu ->
  py_int vq <> Raise OverflowError ->
  py_float vla <> Raise OverflowError ->
  py_float vlo <> Raise OverflowError ->
  ~ In (strip (py_str vg)) genders \/ (exists q, py_int vq = Ok q /\ q < 1) ->
  exists msg,
    add_observation env req c = (Ok (mkResponse 400 (error msg)), c).
Proof.
  intros Hk Hj Hs Hg Hq Hla Hlo Hu Ni Nla Nlo Hbad.
  rewrite (add_observation_six_keys env req c d vs vg vq vla vlo vu)
    by trivial.
  unfold validate.
  rewrite (extract_six_keys d vs vg vq vla vlo vu) by trivial.
  destruct (py_int vq) as [q|e] eqn:Ei.
  2:{ raised Ei py_int_raises; cbn; eauto. congruence. }
  destruct (py_float vla) as [la|e] eqn:Ela.
  2:{ raised Ela py_float_raises; cbn; eauto. congruence. }
  destruct (py_float vlo) as [lo|e] eqn:Elo.
  2:{ raised Elo py_float_raises; cbn; eauto. congruence. }
  cbn [bind f_gender f_quantity].
  destruct (existsb (String.eqb (strip (py_str vg))) genders) eqn:Eg;
    cbn [negb]; [|eauto].
  destruct Hbad as [Hbad | (q' & Hq' & Hlt)].
  - rewrite existsb_eqb_not_In in Eg by trivial. discriminate.
  - assert (q' = q) as -> by congruence.
    destruct (Z.ltb_spec q 1); [eauto | lia].
Qed.

(** The numeric string ["3"] is taken as the integer 3. *)
Lemma quantity_three_as_text :
  py_int (PStr "3") = Ok 3 /\
  add_observation env0
    (with_key (PDict (dict_set "quantity" (PStr "3") deer))) [] =
  (Ok (added (new_oid env0)),
   [stored (mkObservation (new_oid env0) "Deer" "Male" 3 lat0 lon0 "u1"
                          (millis noon))]).
Proof. split; reflexivity. Qed.

(** C4, at a payload that the code does not answer: the quantity coerces to
    0, below 1, and the latitude is an integer beyond the double range;
    [float] raises [OverflowError], which the [except (ValueError,
    TypeError)] clause lets through, so the view raises instead of answering
    400. *)
Theorem low_quantity_overflow_escapes :
  py_int (PInt 0) = Ok 0 /\
  add_observation env0
    (with_key (PDict [("species", PStr "Deer"); ("gender", PStr "Male");
                      ("quantity", PInt 0); ("latitude", PInt (10 ^ 400));
                      ("longitude", PFloat lon0); ("userId", PStr "u1")]))
    [] = (Raise OverflowError, []).
Proof. split; vm_compute; reflexivity. Qed.

(** C5, at a payload that the code does not answer: the gender is ["Cat"]
    and the quantity is the float infinity (JSON [1e999]); [int] raises
    [OverflowError] before the gender is looked at, and the [except
    (ValueError, TypeError)] clause lets it through, so the view raises
    instead of answering 400. *)
Theorem bad_gender_overflow_escapes :
  float_of_str "1e999" = Ok (FInf false) /\
  ~ In (strip (py_str (PStr "Cat"))) genders /\
  add_observation env0
    (with_key (PDict [("species", PStr "Deer"); ("gender", PStr "Cat");
                      ("quantity", PFloat (FInf false));
                      ("latitude", PFloat lat0);
                      ("longitude", PFloat lon0); ("userId", PStr "u1")]))
    [] = (Raise OverflowError, []).
Proof.
  split; [vm_compute; reflexivity|]. split; [|vm_compute; reflexivity].
  simpl. intros [H|[H|[H|[]]]]; discriminate H.
Qed.

(** ** What every request preserves *)

(** An add leaves the collection as it was or appends one observation. *)
Lemma add_observation_collection env req c :
  snd (add_observation env req c) = c \/
  exists f,
    snd (add_observation env req c) = (c ++ [stored (created env f)])%list /\
    existsb (has_id (new_oid env)) c = false.
Proof.
  enter_views. unfold add_observation_view.
  destruct (key_rejected _ _); [now left|].
  destruct (negb (truthy _)); [now left|].
  destruct (missing_fields _ _) as [[|m ms]|e]; try (now left).
  destruct (validate _) as [[r|f]|e].
  - now left.
  - unfold insert_one.
    destruct (negb (store_up env) || negb (store_accepts env _));
      [now left|].
    destruct (existsb (has_id (new_oid env)) c) eqn:Ex; [now left|].
    right. exists f. split; reflexivity.
  - destruct e; now left.
Qed.

Lemma remove_first_stored o l :
  exists l', remove_first o (map stored l) = map stored l'.
Proof.
  induction l as [|x l [l' IH]].
  - now exists [].
  - cbn [map remove_first]. destruct (has_id o (stored x)).
    + now exists l.
    + exists (x :: l'). cbn [map]. now rewrite IH.
Qed.

Lemma delete_observation_collection id env req c :
  snd (delete_observation id env req c) = c \/
  exists o, snd (delete_observation id env req c) = remove_first o c.
Proof.
  enter_views. unfold delete_observation_view, delete_one.
  destruct (key_rejected _ _); [now left|].
  destruct (ObjectId_of_str id) as [o|e]; [|now left].
  destruct (store_up env); [|now left].
  right. exists o. now destruct (existsb (has_id o) c).
Qed.

Lemma reading_keeps_collection env req c :
  snd (get_observations env req c) = c /\
  (forall id, snd (get_observation id env req c) = c) /\
  snd (home env req c) = c.
Proof.
  enter_views. destruct (key_rejected _ _); repeat split.
Qed.

(** Whatever is requested, a collection of observations stays one. *)
Lemma serve_keeps_observations r env req l :
  exists l', snd (serve r env req (map stored l)) = map stored l'.
Proof.
  destruct r as [ | |id|id| ]; cbn [serve].
  - destruct (add_observation_collection env req (map stored l))
      as [-> | (f & -> & _)].
    + now exists l.
    + exists (l ++ [created env f])%list. now rewrite map_app.
  - exists l. apply reading_keeps_collection.
  - exists l. apply reading_keeps_collection.
  - destruct (delete_observation_collection id env req (map stored l))
      as [-> | (o & ->)].
    + now exists l.
    + apply remove_first_stored.
  - exists l. apply reading_keeps_collection.
Qed.

(** Whatever is requested, the identifiers stay distinct. *)
Lemma serve_keeps_unique_ids r env req c :
  unique_ids c = true -> unique_ids (snd (serve r env req c)) = true.
Proof.
  intros Hu. destruct r as [ | |id|id| ]; cbn [serve].
  - destruct (add_observation_collection env req c) as [-> | (f & -> & Ex)];
      trivial.
    apply (unique_ids_insert_one
             (mkEnv None (utcnow env) (oid_seed env) true (fun _ => true))
             (observation f (utcnow env)) c (Ok (new_oid env))); trivial.
    unfold insert_one. cbn [store_up store_accepts negb orb].
    change (new_oid (mkEnv None (utcnow env) (oid_seed env) true
                       (fun _ => true))) with (new_oid env).
    now rewrite Ex.
  - now rewrite (proj1 (reading_keeps_collection env req c)).
  - now rewrite (proj1 (proj2 (reading_keeps_collection env req c))).
  - destruct (delete_observation_collection id env req c) as [-> | (o & ->)];
      trivial.
    now apply unique_ids_remove_first.
  - now rewrite (proj2 (proj2 (reading_keeps_collection env req c))).
Qed.

(** The views that read or delete never let an exception escape. *)
Lemma reads_and_deletes_answer r env req c :
  r <> POST_add_observation ->
  exists resp, fst (serve r env req c) = Ok resp.
Proof.
  intros Hr. destruct r as [ | |id|id| ]; [now elim Hr|..]; cbn [serve].
  - unfold get_observations, require_api_key, get_observations_view,
      catching.
    destruct (key_rejected _ _); cbn [fst]; eauto.
    destruct (bind _ _); eauto.
  - unfold get_observation, require_api_key, get_observation_view, catching.
    destruct (key_rejected _ _); cbn [fst]; eauto.
    destruct (bind _ _); eauto.
  - unfold delete_observation, require_api_key, delete_observation_view.
    destruct (key_rejected _ _); cbn [fst]; eauto.
    destruct (ObjectId_of_str id) as [o|e]; cbn [fst]; eauto.
    destruct (delete_one env o c) as [[n|e] c']; cbn [fst]; eauto.
    destruct (n =? 0); cbn [fst]; eauto.
  - unfold home. cbn [fst]. eauto.
Qed.

(** * Further properties of the views *)

(** ** The body of an add *)

Lemma truthy_false_iff v : truthy v = false <-> empty_body v.
Proof.
  unfold empty_body. split.
  - destruct v as [ |b|n|x|s|l|d|o|t]; simpl; intros H; try discriminate.
    + tauto.
    + destruct b; [discriminate | tauto].
    + apply negb_false_iff, Z.eqb_eq in H. subst. tauto.
    + destruct x as [ |neg|neg m e]; try discriminate. simpl in H.
      apply negb_false_iff, Z.eqb_eq in H. subst. eauto 8.
    + destruct s; [tauto | discriminate].
    + destruct l; [tauto | discriminate].
    + destruct d; [tauto | discriminate].
  - intros [->|[->|[->|[(s & e & ->)|[->|[->| ->]]]]]]; reflexivity.
Qed.

(** X1: an add whose body is [null], [false], a zero, or an empty text,
    array or object is answered 400 with [No data provided], and nothing is
    stored. *)
Theorem empty_body_is_no_data env req c :
  key_rejected (x_api_key req) (API_KEY env) = false ->
  empty_body (get_json req) ->
  add_observation env req c = (Ok (rejected "No data provided"), c).
Proof.
  intros Hk He. apply truthy_false_iff in He.
  enter_views. unfold add_observation_view. now rewrite Hk, He.
Qed.

Lemma empty_body_is_no_data_witness :
  add_observation env0 (with_key (PFloat (fzero true))) [stored deer_obs] =
  (Ok (rejected "No data provided"), [stored deer_obs]).
Proof.
  apply (empty_body_is_no_data env0 (with_key (PFloat (fzero true)))
           [stored deer_obs]).
  - reflexivity.
  - right. right. right. left. exists true, (-1074). reflexivity.
Defined.

(** X2: an add whose body is a non-zero number or [true] is not answered by
    the view: [field not in data] raises [TypeError] outside any [try], and
    nothing is stored. *)
Theorem scalar_body_raises_TypeError env req c :
  key_rejected (x_api_key req) (API_KEY env) = false ->
  scalar (get_json req) = true ->
  truthy (get_json req) = true ->
  add_observation env req c = (Raise TypeError, c).
Proof.
  intros Hk Hs Ht. enter_views. unfold add_observation_view.
  rewrite Hk, Ht. destruct (get_json req); try discriminate Hs; reflexivity.
Qed.

Lemma scalar_body_raises_TypeError_witness :
  add_observation env0 (with_key (PInt 5)) [stored deer_obs] =
  (Raise TypeError, [stored deer_obs]).
Proof.
  apply (scalar_body_raises_TypeError env0 (with_key (PInt 5))
           [stored deer_obs]); reflexivity.
Defined.

Lemma missing_fields_list l fs :
  exists m, missing_fields (PList l) fs = Ok m.
Proof.
  induction fs as [|f r [m IH]].
  - now exists [].
  - change (missing_fields (PList l) (f :: r)) with
      (do b <- py_in f (PList l);
       do m <- missing_fields (PList l) r;
       Ok (if b then m else f :: m)).
    rewrite IH. simpl. eauto.
Qed.

Lemma missing_fields_str s fs :
  exists m, missing_fields (PStr s) fs = Ok m.
Proof.
  induction fs as [|f r [m IH]].
  - now exists [].
  - change (missing_fields (PStr s) (f :: r)) with
      (do b <- py_in f (PStr s);
       do m <- missing_fields (PStr s) r;
       Ok (if b then m else f :: m)).
    rewrite IH. simpl. eauto.
Qed.

(** X3: an add whose body is a non-empty array or text is always answered
    400 and nothing is stored: with [Missing fields] when some required name
    is not an element of the array (not a substring of the text), and with
    [Invalid data types provided] otherwise, since [data['species']] raises
    [TypeError] inside the [try]. *)
Theorem array_or_text_body_is_400 env req c :
  key_rejected (x_api_key req) (API_KEY env) = false ->
  (exists l, get_json req = PList l) \/ (exists s, get_json req = PStr s) ->
  truthy (get_json req) = true ->
  exists m,
    missing_fields (get_json req) required_fields = Ok m /\
    add_observation env req c =
    (Ok (rejected (match m with
                   | [] => "Invalid data types provided"
                   | _ => "Missing fields: " ++ join ", " m
                   end)), c).
Proof.
  intros Hk Hd Ht. enter_views. unfold add_observation_view.
  rewrite Hk, Ht. cbn [negb].
  destruct Hd as [[l Hd]|[s Hd]]; rewrite Hd.
  - destruct (missing_fields_list l required_fields) as [m Hm].
    exists m. rewrite Hm. split; trivial. now destruct m.
  - destruct (missing_fields_str s required_fields) as [m Hm].
    exists m. rewrite Hm. split; trivial. now destruct m.
Qed.

Lemma array_or_text_body_is_400_witness :
  add_observation env0
    (with_key (PStr "species gender quantity latitude longitude userId"))
    [] = (Ok (rejected "Invalid data types provided"), []) /\
  add_observation env0 (with_key (PList [PStr "species"; PInt 2])) [] =
    (Ok (rejected
           "Missing fields: gender, quantity, latitude, longitude, userId"),
     []).
Proof.
  split.
  - destruct (array_or_text_body_is_400 env0
                (with_key
                   (PStr "species gender quantity latitude longitude userId"))
                []) as (m & Hm & H);
      [reflexivity | right; eexists; reflexivity | reflexivity |].
    vm_compute in Hm. injection Hm as Hm. subst m. exact H.
  - destruct (array_or_text_body_is_400 env0
                (with_key (PList [PStr "species"; PInt 2])) [])
      as (m & Hm & H);
      [reflexivity | left; eexists; reflexivity | reflexivity |].
    vm_compute in Hm. injection Hm as Hm. subst m. exact H.
Defined.

(** ** The [try] block of an add *)

(** X4: with the six keys present, the first of the three numeric coercions
    (quantity, latitude, longitude, in that order) to fail decides the
    outcome, whatever the later fields and the gender are: a [ValueError] or
    [TypeError] is answered 400 with [Invalid data types provided], an
    [OverflowError] leaves the view; nothing is stored either way. *)
Theorem first_failing_coercion_decides
  env req c d vs vg vq vla vlo vu e :
  key_rejected (x_api_key req) (API_KEY env) = false ->
  get_json req = PDict d ->
  lookup "species" d = Some vs ->
  lookup "gender" d = Some vg ->
  lookup "quantity" d = Some vq ->
  lookup "latitude" d = Some vla ->
  lookup "longitude" d = Some vlo ->
  lookup "userId" d = Some vu ->
  py_int vq = Raise e \/
  (exists q, py_int vq = Ok q /\ py_float vla = Raise e) \/
  (exists q la, py_int vq = Ok q /\ py_float vla = Ok la /\
                py_float vlo = Raise e) ->
  (e = OverflowError -> add_observation env req c = (Raise OverflowError, c)) /\
  (e <> OverflowError ->
   add_observation env req c =
     (Ok (rejected "Invalid data types provided"), c)).
Proof.
  intros Hk Hj Hs Hg Hq Hla Hlo Hu Hfail.
  rewrite (add_observation_six_keys env req c d vs vg vq vla vlo vu)
    by trivial.
  unfold validate.
  rewrite (extract_six_keys d vs vg vq vla vlo vu) by trivial.
  assert (He : e = TypeError \/ e = ValueError \/ e = OverflowError).
  { destruct Hfail as [H | [(q & _ & H) | (q & la & _ & _ & H)]].
    - now apply py_int_raises in H.
    - now apply py_float_raises in H.
    - now apply py_float_raises in H. }
  assert (Hb : (do q <- py_int vq;
                do la <- py_float vla;
                do lo <- py_float vlo;
                Ok (mkFields (strip (py_str vs)) (strip (py_str vg)) q la lo
                             (strip (py_str vu)))) = Raise e).
  { destruct Hfail as [H | [(q & Hi & H) | (q & la & Hi & Hf & H)]].
    - now rewrite H.
    - now rewrite Hi, H.
    - now rewrite Hi, Hf, H. }
  rewrite Hb. cbn [bind].
  destruct He as [-> | [-> | ->]]; split; intros H; trivial;
    try discriminate H; now elim H.
Qed.

Lemma first_failing_coercion_decides_witness :
  add_observation env0
    (with_key (PDict [("species", PStr "Deer"); ("gender", PStr "Cat");
                      ("quantity", PStr "two"); ("latitude", PInt (10 ^ 400));
                      ("longitude", PNone); ("userId", PStr "u1")]))
    [] = (Ok (rejected "Invalid data types provided"), []).
Proof.
  refine (proj2 (first_failing_coercion_decides env0
                   (with_key (PDict [("species", PStr "Deer");
                                     ("gender", PStr "Cat");
                                     ("quantity", PStr "two");
                                     ("latitude", PInt (10 ^ 400));
                                     ("longitude", PNone);
                                     ("userId", PStr "u1")]))
                   [] _ (PStr "Deer") (PStr "Cat") (PStr "two")
                   (PInt (10 ^ 400)) PNone (PStr "u1") ValueError
                   _ eq_refl eq_refl eq_refl eq_refl eq_refl eq_refl eq_refl
                   _) _).
  - reflexivity.
  - left. reflexivity.
  - discriminate.
Defined.

(** X5: with the six keys present and the three numeric coercions
    succeeding, the gender is tested before the quantity: a gender outside
    the enumeration is answered 400 with [Invalid gender value] whatever the
    quantity, and a quantity below 1 with a listed gender is answered 400
    with [Quantity must be at least 1]; nothing is stored. *)
Theorem gender_is_tested_before_quantity
  env req c d vs vg vq vla vlo vu q la lo :
  key_rejected (x_api_key req) (API_KEY env) = false ->
  get_json req = PDict d ->
  lookup "species" d = Some vs ->
  lookup "gender" d = Some vg ->
  lookup "quantity" d = Some vq ->
  lookup "latitude" d = Some vla ->
  lookup "longitude" d = Some vlo ->
  lookup "userId" d = Some vu ->
  py_int vq = Ok q ->
  py_float vla = Ok la ->
  py_float vlo = Ok lo ->
  (~ In (strip (py_str vg)) genders ->
   add_observation env req c = (Ok (rejected "Invalid gender value"), c)) /\
  (In (strip (py_str vg)) genders -> q < 1 ->
   add_observation env req c =
     (Ok (rejected "Quantity must be at least 1"), c)).
Proof.
  intros Hk Hj Hs Hg Hq Hla Hlo Hu Hint Hlat Hlon.
  rewrite (add_observation_six_keys env req c d vs vg vq vla vlo vu)
    by trivial.
  unfold validate.
  rewrite (extract_six_keys d vs vg vq vla vlo vu) by trivial.
  rewrite Hint, Hlat, Hlon. cbn [bind f_gender f_quantity].
  split.
  - intros Hn. now rewrite existsb_eqb_not_In.
  - intros Hin Hlt. rewrite existsb_eqb_In by trivial.
    destruct (Z.ltb_spec q 1); [reflexivity | lia].
Qed.

Lemma gender_is_tested_before_quantity_witness :
  add_observation env0
    (with_key (PDict (dict_set "gender" (PStr "male")
                        (dict_set "quantity" (PInt 0) deer)))) [] =
    (Ok (rejected "Invalid gender value"), []) /\
  add_observation env0
    (with_key (PDict (dict_set "gender" (PStr " Female ")
                        (dict_set "quantity" (PStr "-4") deer)))) [] =
    (Ok (rejected "Quantity must be at least 1"), []).
Proof.
  split.
  - refine (proj1 (gender_is_tested_before_quantity env0
                     (with_key (PDict (dict_set "gender" (PStr "male")
                                         (dict_set "quantity" (PInt 0) deer))))
                     [] _ (PStr "Deer") (PStr "male") (PInt 0) (PFloat lat0)
                     (PFloat lon0) (PStr "u1") 0 lat0 lon0
                     eq_refl eq_refl eq_refl eq_refl eq_refl eq_refl eq_refl
                     eq_refl eq_refl eq_refl eq_refl) _).
    simpl. intros [H|[H|[H|[]]]]; discriminate H.
  - refine (proj2 (gender_is_tested_before_quantity env0
                     (with_key (PDict (dict_set "gender" (PStr " Female ")
                                         (dict_set "quantity" (PStr "-4")
                                            deer))))
                     [] _ (PStr "Deer") (PStr " Female ") (PStr "-4")
                     (PFloat lat0) (PFloat lon0) (PStr "u1") (-4) lat0 lon0
                     eq_refl eq_refl eq_refl eq_refl eq_refl eq_refl eq_refl
                     eq_refl eq_refl eq_refl eq_refl) _ _).
    + simpl. tauto.
    + lia.
Defined.

(** ** What an add stores *)

(** X6: a valid payload that the store does not take (the store does not
    answer, or refuses the document, or already holds the generated
    identifier) is answered 500 with [Failed to add observation], and the
    collection is left as it was. *)
Theorem refused_insert_is_500
  env req c d vs vg vq vla vlo vu q la lo :
  key_rejected (x_api_key req) (API_KEY env) = false ->
  get_json req = PDict d ->
  lookup "species" d = Some vs ->
  lookup "gender" d = Some vg ->
  lookup "quantity" d = Some vq ->
  lookup "latitude" d = Some vla ->
  lookup "longitude" d = Some vlo ->
  lookup "userId" d = Some vu ->
  In (strip (py_str vg)) genders ->
  py_int vq = Ok q ->
  1 <= q ->
  py_float vla = Ok la ->
  py_float vlo = Ok lo ->
  store_up env = false \/
  store_accepts env
    (observation (mkFields (strip (py_str vs)) (strip (py_str vg)) q la lo
                           (strip (py_str vu))) (utcnow env)) = false \/
  existsb (has_id (new_oid env)) c = true ->
  add_observation env req c = (Ok (failed "Failed to add observation"), c).
Proof.
  intros Hk Hj Hs Hg Hq Hla Hlo Hu Hgen Hint Hpos Hlat Hlon Hfail.
  exact (add_observation_store_failure env req c d vs vg vq vla vlo vu Hk Hj
           Hs Hg Hq Hla Hlo Hu q la lo Hgen Hint Hpos Hlat Hlon Hfail).
Qed.

Lemma refused_insert_is_500_witness :
  add_observation env0 (with_key (PDict deer)) [stored deer_obs] =
  (Ok (failed "Failed to add observation"), [stored deer_obs]).
Proof.
  refine (refused_insert_is_500 env0 (with_key (PDict deer))
            [stored deer_obs] deer (PStr "Deer") (PStr "Male") (PInt 2)
            (PFloat lat0) (PFloat lon0) (PStr "u1") 2 lat0 lon0
            eq_refl eq_refl eq_refl eq_refl eq_refl eq_refl eq_refl eq_refl
            _ eq_refl _ eq_refl eq_refl _).
  - simpl. tauto.
  - lia.
  - right. right. reflexivity.
Defined.

(** The responses the [try] block returns are rejections. *)
Lemma validate_inl data r :
  validate data = Ok (inl r) -> status r = 400.
Proof.
  unfold validate. destruct (extract data) as [f|e]; [|discriminate].
  cbn [bind].
  destruct (negb _); [intros [= <-]; reflexivity|].
  destruct (_ <? _); [intros [= <-]; reflexivity | discriminate].
Qed.

(** X7: an add changes the collection exactly when it answers 201: either
    it answers 201 with the generated identifier and appends one observation
    under that identifier, or the collection is left as it was and the
    answer, if there is one, is not 201. *)
Theorem stored_exactly_when_201 env req c :
  (exists f,
     add_observation env req c =
     (Ok (added (new_oid env)), (c ++ [stored (created env f)])%list)) \/
  (snd (add_observation env req c) = c /\
   forall resp, fst (add_observation env req c) = Ok resp ->
                status resp <> 201).
Proof.
  enter_views. unfold add_observation_view.
  destruct (key_rejected _ _).
  { right. split; trivial. intros resp [= <-]. discriminate. }
  destruct (negb (truthy _)).
  { right. split; trivial. intros resp [= <-]. discriminate. }
  destruct (missing_fields _ _) as [[|m ms]|e].
  2:{ right. split; trivial. intros resp [= <-]. discriminate. }
  2:{ right. split; trivial. intros resp H. discriminate H. }
  destruct (validate _) as [[r|f]|e] eqn:Ev.
  - right. split; trivial. intros resp [= <-].
    rewrite (validate_inl _ _ Ev). discriminate.
  - unfold insert_one.
    destruct (negb (store_up env) || negb (store_accepts env _)).
    { right. split; trivial. intros resp [= <-]. discriminate. }
    destruct (existsb (has_id (new_oid env)) c).
    { right. split; trivial. intros resp [= <-]. discriminate. }
    left. exists f. reflexivity.
  - right. destruct e; split; trivial; intros resp H;
      first [discriminate H | injection H as <-; discriminate].
Qed.

(** ** What every stored observation satisfies *)

Lemma lstrip_by_first sp s :
  match first_char (lstrip_by sp s) with
  | Some c => sp c = false
  | None => True
  end.
Proof.
  induction s as [|c r IH]; simpl; trivial.
  destruct (sp c) eqn:E; simpl; trivial.
Qed.

Lemma rstrip_by_first sp s :
  first_char (rstrip_by sp s) = None \/
  first_char (rstrip_by sp s) = first_char s.
Proof.
  destruct s as [|c r]; simpl; [now left|].
  destruct (rstrip_by sp r); [destruct (sp c)|]; simpl; tauto.
Qed.

Lemma rstrip_by_last sp s :
  match last_char (rstrip_by sp s) with
  | Some c => sp c = false
  | None => True
  end.
Proof.
  induction s as [|c r IH]; simpl; trivial.
  destruct (rstrip_by sp r) as [|a t] eqn:E.
  - destruct (sp c) eqn:Ec; simpl; trivial.
  - exact IH.
Qed.

(** [strip] leaves no white space at either end. *)
Lemma trimmed_strip s : trimmed (strip s) = true.
Proof.
  unfold trimmed, strip, strip_by. apply andb_true_intro. split.
  - pose proof (lstrip_by_first Py_UNICODE_ISSPACE s) as Hl.
    destruct (rstrip_by_first Py_UNICODE_ISSPACE
                (lstrip_by Py_UNICODE_ISSPACE s)) as [-> | ->]; trivial.
    destruct (first_char _); simpl; trivial. now rewrite Hl.
  - pose proof (rstrip_by_last Py_UNICODE_ISSPACE
                  (lstrip_by Py_UNICODE_ISSPACE s)) as Hr.
    destruct (last_char _); simpl; trivial. now rewrite Hr.
Qed.

Lemma extract_texts data f :
  extract data = Ok f ->
  exists vs vu,
    f_species f = strip (py_str vs) /\ f_userId f = strip (py_str vu).
Proof.
  unfold extract.
  destruct (py_getitem data "species") as [vs|]; [|discriminate].
  destruct (py_getitem data "gender") as [vg|]; [|discriminate].
  destruct (py_getitem data "quantity") as [vq|]; [|discriminate].
  cbn [bind]. destruct (py_int vq) as [q|]; [|discriminate].
  destruct (py_getitem data "latitude") as [vla|]; [|discriminate].
  cbn [bind]. destruct (py_float vla) as [la|]; [|discriminate].
  destruct (py_getitem data "longitude") as [vlo|]; [|discriminate].
  cbn [bind]. destruct (py_float vlo) as [lo|]; [|discriminate].
  destruct (py_getitem data "userId") as [vu|]; [|discriminate].
  cbn [bind]. intros [= <-]. exists vs, vu. split; reflexivity.
Qed.

(** The fields that pass the [try] block. *)
Lemma validate_inr data f :
  validate data = Ok (inr f) ->
  trimmed (f_species f) = true /\ In (f_gender f) genders /\
  1 <= f_quantity f /\ trimmed (f_userId f) = true.
Proof.
  unfold validate. destruct (extract data) as [f'|e] eqn:Ex; [|discriminate].
  cbn [bind].
  destruct (existsb (String.eqb (f_gender f')) genders) eqn:Eg;
    cbn [negb]; [|discriminate].
  destruct (Z.ltb_spec (f_quantity f') 1); [discriminate|].
  intros [= <-].
  destruct (extract_texts _ _ Ex) as (vs & vu & -> & ->).
  repeat split; trivial using trimmed_strip.
  apply existsb_exists in Eg as (g & Hin & Hg).
  apply String.eqb_eq in Hg. now subst g.
Qed.

Lemma valid_created env f :
  trimmed (f_species f) = true -> In (f_gender f) genders ->
  1 <= f_quantity f -> trimmed (f_userId f) = true ->
  valid_observation (created env f).
Proof.
  intros Hs Hg Hq Hu. unfold valid_observation, created. cbn.
  repeat split; trivial; try apply length_be_bytes.
  apply Z.mod_mul. lia.
Qed.

(** An add leaves the collection as it was or appends one observation made
    of validated fields, under an identifier that was not there. *)
Lemma add_observation_appends_valid env req c :
  snd (add_observation env req c) = c \/
  exists f,
    snd (add_observation env req c) = (c ++ [stored (created env f)])%list /\
    valid_observation (created env f) /\
    existsb (has_id (new_oid env)) c = false.
Proof.
  enter_views. unfold add_observation_view.
  destruct (key_rejected _ _); [now left|].
  destruct (negb (truthy _)); [now left|].
  destruct (missing_fields _ _) as [[|m ms]|e]; try (now left).
  destruct (validate _) as [[r|f]|e] eqn:Ev.
  - now left.
  - unfold insert_one.
    destruct (negb (store_up env) || negb (store_accepts env _));
      [now left|].
    destruct (existsb (has_id (new_oid env)) c) eqn:Ex; [now left|].
    right. exists f. split; [reflexivity|]. split; [|reflexivity].
    destruct (validate_inr _ _ Ev) as (Hs & Hg & Hq & Hu).
    now apply valid_created.
  - destruct e; now left.
Qed.

Lemma remove_first_stored_incl o l :
  exists l', remove_first o (map stored l) = map stored l' /\ incl l' l.
Proof.
  induction l as [|x l (l' & IH & Hin)].
  - exists []. split; [reflexivity | apply incl_nil_l].
  - cbn [map remove_first]. destruct (has_id o (stored x)).
    + exists l. split; [reflexivity | apply incl_tl, incl_refl].
    + exists (x :: l'). cbn [map]. rewrite IH. split; trivial.
      apply incl_cons; [now left | now apply incl_tl].
Qed.

(** Whatever is requested, valid observations stay valid observations. *)
Lemma serve_keeps_valid r env req l :
  Forall valid_observation l ->
  exists l',
    snd (serve r env req (map stored l)) = map stored l' /\
    Forall valid_observation l'.
Proof.
  intros Hv. destruct r as [ | |id|id| ]; cbn [serve].
  - destruct (add_observation_appends_valid env req (map stored l))
      as [-> | (f & -> & Hf & _)].
    + now exists l.
    + exists (l ++ [created env f])%list. rewrite map_app. split; trivial.
      apply Forall_app. split; trivial. now constructor.
  - exists l. split; trivial; apply reading_keeps_collection.
  - exists l. split; trivial; apply reading_keeps_collection.
  - destruct (delete_observation_collection id env req (map stored l))
      as [-> | (o & ->)].
    + now exists l.
    + destruct (remove_first_stored_incl o l) as (l' & -> & Hin).
      exists l'. split; trivial.
      apply Forall_forall. intros x Hx.
      apply (proj1 (Forall_forall valid_observation l) Hv). now apply Hin.
  - exists l. split; trivial; apply reading_keeps_collection.
Qed.

Lemma reachable_valid c :
  reachable c ->
  exists l,
    c = map stored l /\ Forall valid_observation l /\ unique_ids c = true.
Proof.
  induction 1 as [|r env req c Hc (l & -> & Hv & Hu)].
  - exists []. repeat split. constructor.
  - destruct (serve_keeps_valid r env req l Hv) as (l' & Hl' & Hv').
    exists l'. repeat split; trivial.
    now apply serve_keeps_unique_ids.
Qed.

(** X8: in every collection that requests lead to from the empty one, the
    identifiers are pairwise distinct and each entry is an observation
    document with a twelve-byte identifier, species and user id without
    white space at either end, a gender among Male, Female and Unknown, a
    quantity of at least 1 and a timestamp in whole milliseconds. *)
Theorem reachable_collections_are_valid c :
  reachable c ->
  unique_ids c = true /\
  forall e, In e c -> exists x, e = stored x /\ valid_observation x.
Proof.
  intros Hc. destruct (reachable_valid c Hc) as (l & -> & Hv & Hu).
  split; trivial. intros e He.
  apply in_map_iff in He as (x & <- & Hx). exists x. split; trivial.
  now apply (proj1 (Forall_forall valid_observation l) Hv).
Qed.

Lemma reachable_collections_are_valid_witness :
  unique_ids [stored deer_obs] = true /\
  forall e, In e [stored deer_obs] ->
            exists x, e = stored x /\ valid_observation x.
Proof.
  apply (reachable_collections_are_valid [stored deer_obs]).
  exact (reach_serve POST_add_observation env0 (with_key (PDict deer)) []
           reach_empty).
Defined.

Lemma get_observations_stored env req l :
  key_rejected (x_api_key req) (API_KEY env) = false ->
  store_up env = true ->
  get_observations env req (map stored l) = (Ok (listed l), map stored l).
Proof.
  intros Hk Hup. enter_views.
  unfold get_observations_view, find_all, jsonify.
  rewrite Hk, Hup. cbn [bind]. rewrite render_all_stored. cbn [bind].
  cbn [jsonable forallb]. rewrite jsonable_rendered_all.
  unfold listed. now rewrite map_map.
Qed.

(** X9: a collection that requests lead to from the empty one can always be
    read: with the key and a store that answers, [get_observations] answers
    200 with the rendering of every entry, in order, and [get_observation]
    on the text of any entry's identifier answers 200 with that entry. *)
Theorem reachable_collections_can_be_read env req c :
  reachable c ->
  key_rejected (x_api_key req) (API_KEY env) = false ->
  store_up env = true ->
  exists l,
    c = map stored l /\
    get_observations env req c = (Ok (listed l), c) /\
    forall x, In x l ->
              get_observation (hexlify (o_id x)) env req c = (Ok (found x), c).
Proof.
  intros Hc Hk Hup.
  destruct (reachable_valid c Hc) as (l & -> & Hv & Hu).
  exists l. split; trivial. split.
  - now apply get_observations_stored.
  - intros x Hx. apply get_observation_stored; trivial.
    + now apply (proj1 (Forall_forall valid_observation l) Hv x Hx).
    + apply (find_unique (stored x)); trivial. now apply in_map.
Qed.

Lemma reachable_collections_can_be_read_witness :
  exists l,
    [stored deer_obs] = map stored l /\
    get_observations env0 (with_key PNone) [stored deer_obs] =
      (Ok (listed l), [stored deer_obs]) /\
    forall x, In x l ->
              get_observation (hexlify (o_id x)) env0 (with_key PNone)
                [stored deer_obs] = (Ok (found x), [stored deer_obs]).
Proof.
  apply (reachable_collections_can_be_read env0 (with_key PNone)
           [stored deer_obs]).
  - exact (reach_serve POST_add_observation env0 (with_key (PDict deer)) []
             reach_empty).
  - reflexivity.
  - reflexivity.
Defined.

(** ** Identifiers that are not there, and a store that does not answer *)

Lemma find_absent o c :
  existsb (has_id o) c = false -> find (has_id o) c = None.
Proof.
  induction c as [|e r IH]; simpl; trivial.
  intros H. apply orb_false_elim in H as [He Hr]. now rewrite He, IH.
Qed.

(** X10: [get_observation] on a well-formed identifier under which the
    collection holds nothing answers 404 with [Observation not found]. *)
Theorem unknown_id_is_not_found id o env req c :
  key_rejected (x_api_key req) (API_KEY env) = false ->
  store_up env = true ->
  ObjectId_of_str id = Ok o ->
  existsb (has_id o) c = false ->
  get_observation id env req c = (Ok not_found, c).
Proof.
  intros Hk Hup Hid Hex. enter_views. unfold get_observation_view, find_one.
  rewrite Hk, Hid. cbn [bind]. rewrite Hup, find_absent by trivial.
  reflexivity.
Qed.

Lemma unknown_id_is_not_found_witness :
  get_observation "0123456789abcdef01234567" env0 (with_key PNone)
    [stored deer_obs] = (Ok not_found, [stored deer_obs]).
Proof.
  apply (unknown_id_is_not_found "0123456789abcdef01234567"
           (be_bytes 12 352125166730063718056674663)
           env0 (with_key PNone) [stored deer_obs]); reflexivity.
Defined.

(** X11: when the store does not answer, the three views that read or delete
    answer 500, each with its own message, whatever the identifier, and the
    collection is left as it was. *)
Theorem store_down_is_500 env req c :
  key_rejected (x_api_key req) (API_KEY env) = false ->
  store_up env = false ->
  get_observations env req c =
    (Ok (failed "Failed to fetch observations"), c) /\
  (forall id,
     get_observation id env req c =
       (Ok (failed "Failed to fetch observation"), c) /\
     delete_observation id env req c =
       (Ok (failed "Failed to delete observation"), c)).
Proof.
  intros Hk Hup. enter_views.
  unfold get_observations_view, get_observation_view,
    delete_observation_view, find_all, find_one, delete_one.
  rewrite Hk, Hup. split; [reflexivity|].
  intros id. destruct (ObjectId_of_str id); split; reflexivity.
Qed.

Lemma store_down_is_500_witness :
  get_observations (mkEnv (Some secret) noon 7 false (fun _ => true))
    (with_key PNone) [stored deer_obs] =
  (Ok (failed "Failed to fetch observations"), [stored deer_obs]).
Proof.
  refine (proj1 (store_down_is_500
                   (mkEnv (Some secret) noon 7 false (fun _ => true))
                   (with_key PNone) [stored deer_obs] eq_refl eq_refl)).
Defined.

(** ** How requests compose *)

Lemma oid_eqb_neq a b : a <> b -> oid_eqb a b = false.
Proof.
  intros H. destruct (oid_eqb a b) eqn:E; trivial.
  apply oid_eqb_eq in E. now elim H.
Qed.

Lemma find_remove_first_other o o' c :
  o' <> o -> find (has_id o') (remove_first o c) = find (has_id o') c.
Proof.
  intros Hne. induction c as [|e r IH]; simpl; trivial.
  destruct (has_id o e) eqn:Ho.
  - unfold has_id in Ho. apply oid_eqb_eq in Ho.
    unfold has_id at 2. rewrite Ho, oid_eqb_neq; trivial. congruence.
  - simpl. now rewrite IH.
Qed.

Lemma remove_first_app_new o d c :
  existsb (has_id o) c = false -> remove_first o (c ++ [(o, d)])%list = c.
Proof.
  induction c as [|e r IH]; simpl.
  - intros _. unfold has_id. simpl. now rewrite oid_eqb_refl.
  - intros H. apply orb_false_elim in H as [He Hr]. now rewrite He, IH.
Qed.

Lemma delete_observation_present id o env req c :
  key_rejected (x_api_key req) (API_KEY env) = false ->
  store_up env = true ->
  ObjectId_of_str id = Ok o ->
  existsb (has_id o) c = true ->
  delete_observation id env req c = (Ok deleted, remove_first o c).
Proof.
  intros Hk Hup Hid Hex. enter_views.
  unfold delete_observation_view, delete_one.
  now rewrite Hk, Hid, Hup, Hex.
Qed.

(** X12: a delete leaves the other observations where they are: after the
    observation under one identifier is deleted, [get_observation] on the
    identifier of any other stored observation still answers it. *)
Theorem delete_leaves_the_others id o env env' req req' c x :
  key_rejected (x_api_key req) (API_KEY env) = false ->
  key_rejected (x_api_key req') (API_KEY env') = false ->
  store_up env = true ->
  store_up env' = true ->
  ObjectId_of_str id = Ok o ->
  existsb (has_id o) c = true ->
  unique_ids c = true ->
  In (stored x) c ->
  o_id x <> o ->
  List.length (o_id x) = 12%nat ->
  delete_observation id env req c = (Ok deleted, remove_first o c) /\
  get_observation (hexlify (o_id x)) env' req' (remove_first o c) =
    (Ok (found x), remove_first o c).
Proof.
  intros Hk Hk' Hup Hup' Hid Hex Hu Hin Hne Hlen. split.
  - now apply delete_observation_present.
  - apply get_observation_stored; trivial.
    rewrite find_remove_first_other by trivial.
    now apply (find_unique (stored x)).
Qed.

Lemma delete_leaves_the_others_witness :
  delete_observation "000000000000000000000007" env0 (with_key PNone)
    [(be_bytes 12 7, [("species", PStr "Elk")]); stored deer_obs] =
    (Ok deleted, [stored deer_obs]) /\
  get_observation "0000000000000000672765de" env0 (with_key PNone)
    [stored deer_obs] = (Ok (found deer_obs), [stored deer_obs]).
Proof.
  apply (delete_leaves_the_others "000000000000000000000007" (be_bytes 12 7)
           env0 env0 (with_key PNone) (with_key PNone)
           [(be_bytes 12 7, [("species", PStr "Elk")]); stored deer_obs]
           deer_obs); try reflexivity.
  - right. left. reflexivity.
  - discriminate.
Defined.

(** X13: deleting the identifier that a successful add has returned puts the
    collection back as it was before the add. *)
Theorem add_then_delete_restores
  env env' req req' c d vs vg vq vla vlo vu q la lo :
  key_rejected (x_api_key req) (API_KEY env) = false ->
  get_json req = PDict d ->
  lookup "species" d = Some vs ->
  lookup "gender" d = Some vg ->
  lookup "quantity" d = Some vq ->
  lookup "latitude" d = Some vla ->
  lookup "longitude" d = Some vlo ->
  lookup "userId" d = Some vu ->
  In (strip (py_str vg)) genders ->
  py_int vq = Ok q ->
  1 <= q ->
  py_float vla = Ok la ->
  py_float vlo = Ok lo ->
  store_up env = true ->
  store_accepts env
    (observation (mkFields (strip (py_str vs)) (strip (py_str vg)) q la lo
                           (strip (py_str vu))) (utcnow env)) = true ->
  existsb (has_id (new_oid env)) c = false ->
  key_rejected (x_api_key req') (API_KEY env') = false ->
  store_up env' = true ->
  fst (add_observation env req c) = Ok (added (new_oid env)) /\
  delete_observation (hexlify (new_oid env)) env' req'
    (snd (add_observation env req c)) = (Ok deleted, c).
Proof.
  intros Hk Hj Hs Hg Hq Hla Hlo Hu Hgen Hint Hpos Hlat Hlon Hup Hacc Hfresh
    Hk' Hup'.
  rewrite (add_observation_valid env req c d vs vg vq vla vlo vu Hk Hj Hs Hg
             Hq Hla Hlo Hu q la lo Hgen Hint Hpos Hlat Hlon Hup Hacc Hfresh).
  split; [reflexivity|]. cbn [snd].
  rewrite (delete_observation_present (hexlify (new_oid env)) (new_oid env));
    trivial.
  - unfold stored, created. cbn [o_id]. now rewrite remove_first_app_new.
  - apply ObjectId_of_str_hexlify, length_be_bytes.
  - rewrite existsb_has_id_app. unfold has_id at 2, stored, created.
    cbn [fst o_id]. rewrite oid_eqb_refl. apply orb_true_r.
Qed.

Lemma add_then_delete_restores_witness :
  fst (add_observation env0 (with_key (PDict deer)) []) =
    Ok (added (new_oid env0)) /\
  delete_observation (hexlify (new_oid env0)) env0 (with_key PNone)
    (snd (add_observation env0 (with_key (PDict deer)) [])) =
    (Ok deleted, []).
Proof.
  refine (add_then_delete_restores env0 env0 (with_key (PDict deer))
            (with_key PNone) [] deer (PStr "Deer") (PStr "Male") (PInt 2)
            (PFloat lat0) (PFloat lon0) (PStr "u1") 2 lat0 lon0
            eq_refl eq_refl eq_refl eq_refl eq_refl eq_refl eq_refl eq_refl
            _ eq_refl _ eq_refl eq_refl eq_refl eq_refl eq_refl eq_refl
            eq_refl).
  - simpl. tauto.
  - lia.
Defined.



(** X15: nothing detects a repeated submission: the same valid payload
    added twice, under two different generated identifiers, is answered 201
    both times and is stored as two observations. *)
Theorem same_payload_twice_is_two_records
  env1 env2 req c d vs vg vq vla vlo vu q la lo :
  key_rejected (x_api_key req) (API_KEY env1) = false ->
  key_rejected (x_api_key req) (API_KEY env2) = false ->
  get_json req = PDict d ->
  lookup "species" d = Some vs ->
  lookup "gender" d = Some vg ->
  lookup "quantity" d = Some vq ->
  lookup "latitude" d = Some vla ->
  lookup "longitude" d = Some vlo ->
  lookup "userId" d = Some vu ->
  In (strip (py_str vg)) genders ->
  py_int vq = Ok q ->
  1 <= q ->
  py_float vla = Ok la ->
  py_float vlo = Ok lo ->
  store_up env1 = true ->
  store_up env2 = true ->
  store_accepts env1
    (observation (mkFields (strip (py_str vs)) (strip (py_str vg)) q la lo
                           (strip (py_str vu))) (utcnow env1)) = true ->
  store_accepts env2
    (observation (mkFields (strip (py_str vs)) (strip (py_str vg)) q la lo
                           (strip (py_str vu))) (utcnow env2)) = true ->
  existsb (has_id (new_oid env1)) c = false ->
  existsb (has_id (new_oid env2)) c = false ->
  new_oid env1 <> new_oid env2 ->
  let f := mkFields (strip (py_str vs)) (strip (py_str vg)) q la lo
                    (strip (py_str vu)) in
  add_observation env1 req c =
    (Ok (added (new_oid env1)), (c ++ [stored (created env1 f)])%list) /\
  add_observation env2 req (c ++ [stored (created env1 f)])%list =
    (Ok (added (new_oid env2)),
     (c ++ [stored (created env1 f); stored (created env2 f)])%list).
Proof.
  intros Hk1 Hk2 Hj Hs Hg Hq Hla Hlo Hu Hgen Hint Hpos Hlat Hlon Hup1 Hup2
    Hacc1 Hacc2 Hf1 Hf2 Hne f.
  split.
  - exact (add_observation_valid env1 req c d vs vg vq vla vlo vu Hk1 Hj Hs
             Hg Hq Hla Hlo Hu q la lo Hgen Hint Hpos Hlat Hlon Hup1 Hacc1 Hf1).
  - rewrite (add_observation_valid env2 req _ d vs vg vq vla vlo vu Hk2 Hj Hs
               Hg Hq Hla Hlo Hu q la lo Hgen Hint Hpos Hlat Hlon Hup2 Hacc2).
    + now rewrite <- app_assoc.
    + rewrite existsb_has_id_app, Hf2. unfold has_id, stored, created.
      cbn [fst o_id orb]. now apply oid_eqb_neq.
Qed.

Lemma same_payload_twice_is_two_records_witness :
  snd (add_observation (mkEnv (Some secret) noon 8 true (fun _ => true))
         (with_key (PDict deer))
         (snd (add_observation env0 (with_key (PDict deer)) []))) =
  [stored deer_obs;
   stored (mkObservation (be_bytes 12 8) "Deer" "Male" 2 lat0 lon0 "u1"
                         (millis noon))].
Proof.
  assert (Hg : In (strip (py_str (PStr "Male"))) genders)
    by (simpl; tauto).
  assert (Hq : 1 <= 2) by lia.
  assert (Hne : new_oid env0 <>
                new_oid (mkEnv (Some secret) noon 8 true (fun _ => true)))
    by discriminate.
  destruct (same_payload_twice_is_two_records env0
              (mkEnv (Some secret) noon 8 true (fun _ => true))
              (with_key (PDict deer)) [] deer (PStr "Deer") (PStr "Male")
              (PInt 2) (PFloat lat0) (PFloat lon0) (PStr "u1") 2 lat0 lon0
              eq_refl eq_refl eq_refl eq_refl eq_refl eq_refl eq_refl
              eq_refl eq_refl Hg eq_refl Hq eq_refl eq_refl eq_refl eq_refl
              eq_refl eq_refl eq_refl eq_refl Hne)
    as [H1 H2].
  rewrite H1. cbn [snd]. rewrite H2. reflexivity.
Defined.

(** ** The key, once more *)

(** X16: the decorator lets a request through to the view it wraps exactly
    when the [x-api-key] header is present, is not empty and equals the
    configured key. *)
Theorem key_lets_through_iff env req c :
  (forall f : view, require_api_key f env req c = f env req c) <->
  (exists k, x_api_key req = Some k /\ API_KEY env = Some k /\
             k <> EmptyString).
Proof.
  rewrite <- key_accepted_iff. unfold require_api_key. split.
  - intros H. specialize (H home).
    destruct (key_rejected _ _); [discriminate H | reflexivity].
  - intros -> f. reflexivity.
Qed.

(** ** Exceptions that leave a view *)

Lemma missing_fields_raises data fs e :
  missing_fields data fs = Raise e -> e = TypeError.
Proof.
  induction fs as [|f r IH]; [discriminate|].
  change (missing_fields data (f :: r)) with
    (do b <- py_in f data;
     do m <- missing_fields data r;
     Ok (if b then m else f :: m)).
  destruct (py_in f data) as [b|e'] eqn:Ei; cbn [bind].
  - destruct (missing_fields data r) as [m|e'']; cbn [bind];
      [discriminate|].
    intros [= <-]. now apply IH.
  - intros [= <-]. destruct data; simpl in Ei; congruence.
Qed.

Lemma py_getitem_raises v k e :
  py_getitem v k = Raise e ->
  e = TypeError \/ exists d, v = PDict d /\ lookup k d = None.
Proof.
  destruct v as [ |b|n|x|s|l|d|o|t]; simpl; try (intros [= <-]; tauto).
  destruct (lookup k d) eqn:E; [discriminate|]. intros _. eauto.
Qed.

(** Once no required key is missing, no subscript raises [KeyError]. *)
Lemma no_missing_field_no_KeyError data k e :
  missing_fields data required_fields = Ok [] ->
  In k required_fields ->
  py_getitem data k = Raise e -> e = TypeError.
Proof.
  intros Hm Hk He.
  destruct (py_getitem_raises _ _ _ He) as [-> | (d & -> & Hl)]; trivial.
  assert (Ho : Ok (omitted d) = Ok (@nil string)).
  { rewrite <- Hm. symmetry. apply missing_fields_dict. }
  assert (Ho' : omitted d = []) by congruence.
  assert (Hin : In k (omitted d)) by now apply omitted_spec.
  rewrite Ho' in Hin. destruct Hin.
Qed.

Lemma extract_raises data e :
  extract data = Raise e ->
  (exists k, In k required_fields /\ py_getitem data k = Raise e) \/
  e = TypeError \/ e = ValueError \/ e = OverflowError.
Proof.
  unfold extract, required_fields.
  destruct (py_getitem data "species") as [vs|e1] eqn:E1; cbn [bind].
  2:{ intros [= <-]. left. exists "species". simpl. tauto. }
  destruct (py_getitem data "gender") as [vg|e1] eqn:E2; cbn [bind].
  2:{ intros [= <-]. left. exists "gender". simpl. tauto. }
  destruct (py_getitem data "quantity") as [vq|e1] eqn:E3; cbn [bind].
  2:{ intros [= <-]. left. exists "quantity". simpl. tauto. }
  destruct (py_int vq) as [q|e1] eqn:Ei; cbn [bind].
  2:{ intros [= <-]. right. now apply py_int_raises in Ei. }
  destruct (py_getitem data "latitude") as [vla|e1] eqn:E4; cbn [bind].
  2:{ intros [= <-]. left. exists "latitude". simpl. tauto. }
  destruct (py_float vla) as [la|e1] eqn:Ela; cbn [bind].
  2:{ intros [= <-]. right. now apply py_float_raises in Ela. }
  destruct (py_getitem data "longitude") as [vlo|e1] eqn:E5; cbn [bind].
  2:{ intros [= <-]. left. exists "longitude". simpl. tauto. }
  destruct (py_float vlo) as [lo|e1] eqn:Elo; cbn [bind].
  2:{ intros [= <-]. right. now apply py_float_raises in Elo. }
  destruct (py_getitem data "userId") as [vu|e1] eqn:E6; cbn [bind].
  2:{ intros [= <-]. left. exists "userId". simpl. tauto. }
  discriminate.
Qed.

Lemma validate_raises data e :
  missing_fields data required_fields = Ok [] ->
  validate data = Raise e ->
  e = TypeError \/ e = ValueError \/ e = OverflowError.
Proof.
  intros Hm. unfold validate.
  destruct (extract data) as [f|e'] eqn:Ex; cbn [bind].
  - destruct (negb _); [discriminate|]. destruct (_ <? _); discriminate.
  - intros [= <-].
    destruct (extract_raises _ _ Ex) as [(k & Hk & Hg) | H]; trivial.
    left. now apply (no_missing_field_no_KeyError data k).
Qed.

(** Once the body is parsed, an exception leaves a view only from
    [add_observation], and is a [TypeError] or an [OverflowError]. *)
Lemma parsed_body_exceptions r env req c e c' :
  serve r env req c = (Raise e, c') ->
  r = POST_add_observation /\ c' = c /\
  (e = TypeError \/ e = OverflowError).
Proof.
  intros H.
  destruct r as [ | |id|id| ].
  2-5: match type of H with
       | serve ?r _ _ _ = _ =>
           destruct (reads_and_deletes_answer r env req c) as [resp Hr];
           [discriminate | rewrite H in Hr; discriminate Hr]
       end.
  split; trivial. cbn [serve] in H. revert H.
  enter_views. unfold add_observation_view.
  destruct (key_rejected _ _); [discriminate|].
  destruct (negb (truthy _)); [discriminate|].
  destruct (missing_fields _ _) as [[|m ms]|e0] eqn:Em.
  - destruct (validate _) as [[resp|f]|e0] eqn:Ev.
    + discriminate.
    + destruct (insert_one _ _ _) as [[o|e1] c1]; discriminate.
    + destruct (validate_raises _ _ Em Ev) as [-> | [-> | ->]];
        try discriminate.
      intros [= <- <-]. tauto.
  - discriminate.
  - intros [= <- <-]. apply missing_fields_raises in Em. tauto.
Qed.

(** X17: the exceptions that leave a view all come from [add_observation]:
    the one that [request.get_json()] itself raises on a body it does not
    parse, a [TypeError] and an [OverflowError]; the collection is then left
    as it was, and no request without the key gets that far.  The other
    four views always answer. *)
Theorem exceptions_that_leave_a_view env key b c e c' :
  add_observation_received env key b c = (Raise e, c') ->
  c' = c /\
  key_rejected key (API_KEY env) = false /\
  (b = Unparsed e \/ e = TypeError \/ e = OverflowError) /\
  (forall r req,
     r <> POST_add_observation ->
     exists resp, fst (serve r env req c) = Ok resp).
Proof.
  intros H.
  assert (Hk : key_rejected key (API_KEY env) = false).
  { destruct (key_rejected key (API_KEY env)) eqn:Ek; trivial.
    destruct b as [data|e0]; unfold add_observation_received, add_observation,
      require_api_key in H; cbn [x_api_key] in H; rewrite Ek in H;
      discriminate H. }
  split; [|split; [exact Hk | split]].
  - destruct b as [data|e0]; cbn [add_observation_received] in H.
    + now destruct (parsed_body_exceptions POST_add_observation env
                      (mkRequest key data) c e c' H) as (_ & -> & _).
    + unfold require_api_key in H. cbn [x_api_key] in H. rewrite Hk in H.
      now injection H as _ <-.
  - destruct b as [data|e0]; cbn [add_observation_received] in H.
    + right.
      now destruct (parsed_body_exceptions POST_add_observation env
                      (mkRequest key data) c e c' H) as (_ & _ & He).
    + unfold require_api_key in H. cbn [x_api_key] in H. rewrite Hk in H.
      left. now injection H as -> _.
  - intros r req Hr. now apply reads_and_deletes_answer.
Qed.

Lemma exceptions_that_leave_a_view_witness :
  add_observation_received env0 (Some secret) (Unparsed BadRequest)
    [stored deer_obs] = (Raise BadRequest, [stored deer_obs]) /\
  add_observation_received env0 None (Unparsed BadRequest)
    [stored deer_obs] = (Ok unauthorized, [stored deer_obs]) /\
  (Unparsed BadRequest = Unparsed BadRequest \/ BadRequest = TypeError \/
   BadRequest = OverflowError).
Proof.
  split; [reflexivity|]. split; [reflexivity|].
  exact (proj1 (proj2 (proj2
           (exceptions_that_leave_a_view env0 (Some secret)
              (Unparsed BadRequest) [stored deer_obs] BadRequest
              [stored deer_obs] eq_refl)))).
Defined.

(** ** Documents that are not observations *)

Lemma render_without_timestamp e :
  (forall t, lookup "timestamp" (snd e) <> Some (PDatetime t)) ->
  exists ex, render (with_id e) = Raise ex.
Proof.
  intros H. unfold render, with_id.
  change (py_getitem (PDict (("_id", PObjectId (fst e)) :: snd e)) "_id")
    with (Ok (PObjectId (fst e))).
  cbn [bind].
  change (dict_set "_id" (PStr (py_str (PObjectId (fst e))))
            (("_id", PObjectId (fst e)) :: snd e))
    with (("_id", PStr (py_str (PObjectId (fst e)))) :: snd e).
  change (py_getitem
            (PDict (("_id", PStr (py_str (PObjectId (fst e)))) :: snd e))
            "timestamp")
    with (match lookup "timestamp" (snd e) with
          | Some x => Ok x
          | None => Raise KeyError
          end).
  destruct (lookup "timestamp" (snd e)) as [v|]; cbn [bind]; [|eauto].
  destruct v; cbn [py_isoformat bind]; eauto.
  now elim (H t).
Qed.

Lemma render_all_raises c e :
  In e c ->
  (exists ex, render (with_id e) = Raise ex) ->
  exists ex, render_all (map with_id c) = Raise ex.
Proof.
  intros Hin [ex He]. induction c as [|a r IH]; [destruct Hin|].
  change (render_all (map with_id (a :: r))) with
    (do o <- render (with_id a);
     do r' <- render_all (map with_id r);
     Ok (o :: r')).
  destruct (render (with_id a)) as [o|x] eqn:Ea; cbn [bind]; [|eauto].
  destruct Hin as [-> | Hin]; [congruence|].
  destruct (IH Hin) as [ex' ->]. cbn [bind]. eauto.
Qed.

(** X18: one stored document whose [timestamp] is missing or is not a
    datetime makes the whole listing fail: [get_observations] answers 500
    with [Failed to fetch observations], whatever the other documents
    are. *)
Theorem one_bad_timestamp_fails_the_listing env req c e :
  key_rejected (x_api_key req) (API_KEY env) = false ->
  store_up env = true ->
  In e c ->
  (forall t, lookup "timestamp" (snd e) <> Some (PDatetime t)) ->
  get_observations env req c =
    (Ok (failed "Failed to fetch observations"), c).
Proof.
  intros Hk Hup Hin Hbad. enter_views.
  unfold get_observations_view, find_all. rewrite Hk, Hup. cbn [bind].
  destruct (render_all_raises c e Hin (render_without_timestamp e Hbad))
    as [ex ->].
  reflexivity.
Qed.

Lemma one_bad_timestamp_fails_the_listing_witness :
  get_observations env0 (with_key PNone)
    [stored deer_obs;
     (be_bytes 12 7, [("species", PStr "Elk");
                      ("timestamp", PStr "2024-11-03T12:00:30Z")])] =
  (Ok (failed "Failed to fetch observations"),
   [stored deer_obs;
    (be_bytes 12 7, [("species", PStr "Elk");
                     ("timestamp", PStr "2024-11-03T12:00:30Z")])]).
Proof.
  apply (one_bad_timestamp_fails_the_listing env0 (with_key PNone)
           [stored deer_obs;
            (be_bytes 12 7, [("species", PStr "Elk");
                             ("timestamp", PStr "2024-11-03T12:00:30Z")])]
           (be_bytes 12 7, [("species", PStr "Elk");
                            ("timestamp", PStr "2024-11-03T12:00:30Z")])).
  - reflexivity.
  - reflexivity.
  - right. left. reflexivity.
  - intros t. discriminate.
Defined.

(** ** Identifiers in upper case *)

Lemma fromhex_upper_byte b r :
  fromhex (String (upper_char (hex_digit (Z.of_N (Byte.to_N b) / 16)))
             (String (upper_char (hex_digit (Z.of_N (Byte.to_N b) mod 16)))
                r)) =
  option_map (cons b) (fromhex r).
Proof. destruct b; reflexivity. Qed.

Lemma fromhex_upper_hexlify bs : fromhex (upper (hexlify bs)) = Some bs.
Proof.
  induction bs as [|b bs IH].
  - reflexivity.
  - change (upper (hexlify (b :: bs))) with
      (String (upper_char (hex_digit (Z.of_N (Byte.to_N b) / 16)))
         (String (upper_char (hex_digit (Z.of_N (Byte.to_N b) mod 16)))
            (upper (hexlify bs)))).
    now rewrite fromhex_upper_byte, IH.
Qed.

Lemma length_string_map f s :
  String.length (string_map f s) = String.length s.
Proof. induction s as [|c r IH]; simpl; congruence. Qed.

(** X19: the identifier in the path may be written in upper case:
    [get_observation] and [delete_observation] do on the upper-case text of
    a twelve-byte identifier what they do on its lower-case text. *)
Theorem identifier_text_ignores_case o env req c :
  List.length o = 12%nat ->
  get_observation (upper (hexlify o)) env req c =
    get_observation (hexlify o) env req c /\
  delete_observation (upper (hexlify o)) env req c =
    delete_observation (hexlify o) env req c.
Proof.
  intros Hlen.
  assert (Hu : ObjectId_of_str (upper (hexlify o)) = Ok o).
  { unfold ObjectId_of_str, upper.
    rewrite length_string_map, length_hexlify, Hlen.
    fold (upper (hexlify o)). now rewrite fromhex_upper_hexlify. }
  pose proof (ObjectId_of_str_hexlify o Hlen) as Hl.
  enter_views. unfold get_observation_view, delete_observation_view.
  now rewrite Hu, Hl.
Qed.

Lemma identifier_text_ignores_case_witness :
  get_observation "0000000000000000672765DE" env0 (with_key PNone)
    [stored deer_obs] = (Ok (found deer_obs), [stored deer_obs]).
Proof.
  refine (eq_trans
            (proj1 (identifier_text_ignores_case (o_id deer_obs) env0
                      (with_key PNone) [stored deer_obs] eq_refl)) _).
  reflexivity.
Defined.
